(** * The font-format panel of BallonsTranslator

    A shallow embedding of [ballontranslator/ui/fontformatpanel.py]: the
    [restore_textcursor] decorator and the [set_textblk_*] formatting
    operations it wraps, the alignment and font-size widgets, and the
    handlers of [FontFormatPanel].

    The file is organised as follows.
    - [Py]: the fragments of Python the module relies on (exceptions, binary64
      floats, [round], list indexing).
    - [Qt]: the toolkit objects the code drives (fonts, character formats, the
      rich-text document and its cursor), modelled after Qt 5's documented
      behaviour.
    - the embedding of the source, definition by definition;
    - the properties proved about it. *)

From stdpp Require Import base option list strings pretty gmap.
From Stdlib Require Import ZArith Lia.
From Stdlib Require Import Floats.SpecFloat.

Open Scope Z_scope.

(* ===================================================================== *)
(** * Python                                                               *)
(* ===================================================================== *)

Module Py.

(** Exceptions the modelled code can raise. *)
Inductive exn := ValueError | OverflowError | IndexError | AttributeError | TypeError.

(** The outcome of a Python expression: a value, or a raised exception. *)
Inductive result (A : Type) :=
| Ok (a : A)
| Raise (e : exn).
Arguments Ok {A} a.
Arguments Raise {A} e.

#[global] Instance result_ret : MRet result := fun A a => Ok a.
#[global] Instance result_bind : MBind result := fun A B f m =>
  match m with
  | Ok a => f a
  | Raise e => Raise e
  end.

(** ** Floats

    A Python [float] is an IEEE 754 binary64 number: 53 bits of precision,
    exponents below 1024. *)
Definition float := spec_float.
Definition prec := 53.
Definition emax := 1024.

#[global] Instance float_eq_dec : EqDecision float.
Proof. solve_decision. Defined.

(** [float(n)] for an integer [n], and the double [m * 2^e]. *)
Definition float_of_Z (n : Z) : float := binary_normalize prec emax n 0 false.
Definition float_of_scaled (m e : Z) : float := binary_normalize prec emax m e false.

(** The double a decimal literal [n/d] denotes (correctly rounded). *)
Definition float_of_ratio (n d : Z) : float :=
  SFdiv prec emax (float_of_Z n) (float_of_Z d).

Definition fmul : float -> float -> float := SFmul prec emax.
Definition feqb : float -> float -> bool := SFeqb.
Definition fltb : float -> float -> bool := SFltb.
Definition fleb : float -> float -> bool := SFleb.

(** The integer nearest to [m * 2^e], ties to the even one. *)
Definition round_half_even (m e : Z) : Z :=
  if 0 <=? e then m * 2 ^ e
  else
    let d := 2 ^ (- e) in
    let q := m / d in
    let r := m mod d in
    match 2 * r ?= d with
    | Lt => q
    | Gt => q + 1
    | Eq => if Z.even q then q else q + 1
    end.

(** [round(x)] with one argument: an [int], halves rounded to even;
    [ValueError] on a NaN and [OverflowError] on an infinity. *)
Definition round (x : float) : result Z :=
  match x with
  | S754_zero _ => Ok 0
  | S754_finite s m e =>
      let r := round_half_even (Zpos m) e in
      Ok (if s then - r else r)
  | S754_nan => Raise ValueError
  | S754_infinity _ => Raise OverflowError
  end.

(** [int(x)] for a float: truncation toward zero. *)
Definition int_of_float (x : float) : result Z :=
  match x with
  | S754_zero _ => Ok 0
  | S754_finite s m e =>
      let t := if 0 <=? e then Zpos m * 2 ^ e else Zpos m / 2 ^ (- e) in
      Ok (if s then - t else t)
  | S754_nan => Raise ValueError
  | S754_infinity _ => Raise OverflowError
  end.

(** [n == x] for an [int] and a [float]: Python compares the exact values. *)
Definition int_eq_float (n : Z) (x : float) : bool :=
  match x with
  | S754_zero _ => n =? 0
  | S754_finite s m e =>
      let v := if s then Zneg m else Zpos m in
      if 0 <=? e then n =? v * 2 ^ e else n * 2 ^ (- e) =? v
  | _ => false
  end.

(** [l[i]]: a negative index counts from the end; out of range is an
    [IndexError]. *)
Definition index {A} (l : list A) (i : Z) : result A :=
  let n := Z.of_nat (length l) in
  let j := if i <? 0 then n + i else i in
  if (0 <=? j) && (j <? n) then
    match l !! Z.to_nat j with
    | Some a => Ok a
    | None => Raise IndexError
    end
  else Raise IndexError.

End Py.
Import Py.

(* ===================================================================== *)
(** * Widgets and their signals                                            *)
(* ===================================================================== *)

(** The signals the module declares ([Signal(...)] class attributes) and the
    toolkit signal the checkers are connected through. *)
Inductive Signal :=
| set_alignment (alignment : Z)      (* AlignmentBtnGroup.set_alignment = Signal(int) *)
| apply_fontsize (size : float)      (* FontSizeBox.apply_fontsize = Signal(float) *)
| global_format_changed.             (* FontFormatPanel.global_format_changed = Signal() *)

(** A method of a widget in state [S]: it leaves a state behind, the signals
    it emitted in order, and either returns or raises.  An exception keeps
    the state reached so far, as in Python. *)
Record Outcome (S A : Type) := mkOutcome {
  final : S;
  emitted : list Signal;
  returned : result A
}.
Arguments mkOutcome {S A} _ _ _.
Arguments final {S A} _.
Arguments emitted {S A} _.
Arguments returned {S A} _.

Definition Method (S A : Type) : Type := S -> Outcome S A.

#[global] Instance method_ret {S} : MRet (Method S) := fun A a s => mkOutcome s [] (Ok a).
#[global] Instance method_bind {S} : MBind (Method S) := fun A B f m s =>
  let o := m s in
  match returned o with
  | Ok a =>
      let o' := f a (final o) in
      mkOutcome (final o') (emitted o ++ emitted o') (returned o')
  | Raise e => mkOutcome (final o) (emitted o) (Raise e)
  end.

Definition emit {S} (sig : Signal) : Method S unit := fun s => mkOutcome s [sig] (Ok tt).
Definition raise {S A} (e : exn) : Method S A := fun s => mkOutcome s [] (Raise e).
Definition get {S} : Method S S := fun s => mkOutcome s [] (Ok s).
Definition modify {S} (f : S -> S) : Method S unit := fun s => mkOutcome (f s) [] (Ok tt).
Definition lift {S A} (r : result A) : Method S A := fun s => mkOutcome s [] r.

(* --------------------------------------------------------------------- *)
(** ** AlignmentChecker and AlignmentBtnGroup                              *)
(* --------------------------------------------------------------------- *)

(** A check box: whether it is checked, and whether a mouse press is being
    held on it ([QAbstractButton]'s down state). *)
Record AlignmentChecker := mkChecker {
  isChecked : bool;
  isDown : bool
}.

Definition setChecked (b : bool) (c : AlignmentChecker) : AlignmentChecker :=
  mkChecker b (isDown c).

(** Toolkit: [QAbstractButton.mousePressEvent] for a left press inside the
    button arms it and accepts the event. *)
Definition QCheckBox_mousePressEvent (c : AlignmentChecker) : AlignmentChecker * bool :=
  (mkChecker (isChecked c) true, true).

(** Toolkit: [QAbstractButton.mouseReleaseEvent] does nothing on a button
    that is not armed; on an armed one it disarms it, moves it to its next
    check state and emits [clicked] (the boolean of the result). *)
Definition QCheckBox_mouseReleaseEvent (c : AlignmentChecker) : AlignmentChecker * bool :=
  if isDown c then (mkChecker (negb (isChecked c)) false, true)
  else (c, false).

(** [AlignmentChecker.mousePressEvent]: the checker and whether the event was
    accepted. *)
Definition mousePressEvent (c : AlignmentChecker) : AlignmentChecker * bool :=
  if isChecked c then (c, true)
  else QCheckBox_mousePressEvent c.

(** The three checkers of the group, as objects [sender()] can be compared
    with. *)
Inductive AlignBtn := LeftBtn | CenterBtn | RightBtn.

#[global] Instance AlignBtn_eq_dec : EqDecision AlignBtn.
Proof. solve_decision. Defined.

Record AlignmentBtnGroup := mkGroup {
  alignLeftChecker : AlignmentChecker;
  alignCenterChecker : AlignmentChecker;
  alignRightChecker : AlignmentChecker
}.

Definition setCheckers (l c r : bool) (g : AlignmentBtnGroup) : AlignmentBtnGroup :=
  mkGroup (setChecked l (alignLeftChecker g))
          (setChecked c (alignCenterChecker g))
          (setChecked r (alignRightChecker g)).

(** [AlignmentBtnGroup.alignBtnPressed]; [btn] is [self.sender()], [None]
    when the sender is none of the three checkers. *)
Definition alignBtnPressed (btn : option AlignBtn) : Method AlignmentBtnGroup unit :=
  if decide (btn = Some LeftBtn) then
    modify (setCheckers true false false);; emit (set_alignment 0)
  else if decide (btn = Some RightBtn) then
    modify (setCheckers false false true);; emit (set_alignment 2)
  else
    modify (setCheckers false true false);; emit (set_alignment 1).

(** [AlignmentBtnGroup.setAlignment]. *)
Definition setAlignment (alignment : Z) (g : AlignmentBtnGroup) : AlignmentBtnGroup :=
  if alignment =? 0 then setCheckers true false false g
  else if alignment =? 1 then setCheckers false true false g
  else setCheckers false false true g.

Definition checker (b : AlignBtn) (g : AlignmentBtnGroup) : AlignmentChecker :=
  match b with
  | LeftBtn => alignLeftChecker g
  | CenterBtn => alignCenterChecker g
  | RightBtn => alignRightChecker g
  end.

Definition with_checker (b : AlignBtn) (c : AlignmentChecker) (g : AlignmentBtnGroup)
  : AlignmentBtnGroup :=
  match b with
  | LeftBtn => mkGroup c (alignCenterChecker g) (alignRightChecker g)
  | CenterBtn => mkGroup (alignLeftChecker g) c (alignRightChecker g)
  | RightBtn => mkGroup (alignLeftChecker g) (alignCenterChecker g) c
  end.

(** A mouse click (press, then release) on checker [b]: the checker's
    [clicked] signal is connected to [alignBtnPressed]. *)
Definition click (b : AlignBtn) : Method AlignmentBtnGroup unit :=
  g ← get;
  let '(c1, _) := mousePressEvent (checker b g) in
  let '(c2, clicked) := QCheckBox_mouseReleaseEvent c1 in
  modify (with_checker b c2);;
  if clicked then alignBtnPressed (Some b) else mret tt.

(** The alignment codes of the checkers that are checked, left to right. *)
Definition checked_alignments (g : AlignmentBtnGroup) : list Z :=
  (if isChecked (alignLeftChecker g) then [0] else []) ++
  (if isChecked (alignCenterChecker g) then [1] else []) ++
  (if isChecked (alignRightChecker g) then [2] else []).

(* --------------------------------------------------------------------- *)
(** ** SizeComboBox and FontSizeBox                                        *)
(* --------------------------------------------------------------------- *)

(** An editable combo box of numbers.  [currentText] stands for the text of
    the line edit through what [float()] makes of it: [Some x] when it reads
    as the double [x], [None] when [float()] rejects it. *)
Record SizeComboBox := mkSizeComboBox {
  currentText : option float;
  text_changed_by_user : bool;
  hasFocus : bool
}.

(** [SizeComboBox.value]: [float(self.currentText())]. *)
Definition value (box : SizeComboBox) : result float :=
  match currentText box with
  | Some x => Ok x
  | None => Raise ValueError
  end.

(** [setCurrentText(str(x))]: the text [str] prints for a number reads back
    as that number. *)
Definition setCurrentText (x : float) (box : SizeComboBox) : SizeComboBox :=
  mkSizeComboBox (Some x) (text_changed_by_user box) (hasFocus box).

(** [SizeComboBox.setValue]. *)
Definition setValue (x : float) (box : SizeComboBox) : SizeComboBox :=
  setCurrentText x box.

Record FontSizeBox := mkFontSizeBox {
  fcombobox : SizeComboBox
}.

(** [FontSizeBox.getFontSize]. *)
Definition getFontSize : Method FontSizeBox float :=
  box ← get; lift (value (fcombobox box)).

(** The literals [1.25] and [0.75]. *)
Definition lit_1_25 : float := float_of_scaled 5 (-2).
Definition lit_0_75 : float := float_of_scaled 3 (-2).

(** [FontSizeBox.onUpBtnClicked]. *)
Definition onUpBtnClicked : Method FontSizeBox unit :=
  size ← getFontSize;
  newsize ← lift (Py.round (fmul size lit_1_25));
  let newsize := if int_eq_float newsize size then newsize + 1 else newsize in
  let newsize := Z.min 1000 newsize in
  if negb (int_eq_float newsize size) then
    emit (apply_fontsize (float_of_Z newsize));;
    modify (fun box => mkFontSizeBox (setCurrentText (float_of_Z newsize) (fcombobox box)))
  else mret tt.

(** [FontSizeBox.onDownBtnClicked]. *)
Definition onDownBtnClicked : Method FontSizeBox unit :=
  size ← getFontSize;
  newsize ← lift (Py.round (fmul size lit_0_75));
  let newsize := if int_eq_float newsize size then newsize - 1 else newsize in
  let newsize := Z.max 1 newsize in
  if negb (int_eq_float newsize size) then
    emit (apply_fontsize (float_of_Z newsize));;
    modify (fun box => mkFontSizeBox (setCurrentText (float_of_Z newsize) (fcombobox box)))
  else mret tt.

(** [FontSizeBox.on_fbox_enter_pressed]. *)
Definition on_fbox_enter_pressed : Method FontSizeBox unit :=
  box ← get;
  if text_changed_by_user (fcombobox box) then
    modify (fun box => mkFontSizeBox
              (mkSizeComboBox (currentText (fcombobox box)) false (hasFocus (fcombobox box))));;
    size ← getFontSize;
    emit (apply_fontsize size)
  else mret tt.

(** A font-size box whose line edit shows the decimal [n/d]. *)
Definition box_showing (n d : Z) : FontSizeBox :=
  mkFontSizeBox (mkSizeComboBox (Some (float_of_ratio n d)) false false).

(* ===================================================================== *)
(** * The toolkit: fonts, character formats, documents and cursors         *)
(* ===================================================================== *)

Module Qt.

(** ** QColor *)

(** The colour [QColor( *rgb )] built from the components in [rgb]. *)
Inductive QColor := QColor_of (rgb : list Z).

#[global] Instance QColor_eq_dec : EqDecision QColor.
Proof. solve_decision. Defined.

(** ** QFixed

    [QFont] keeps its word and letter spacing as [QFixed] numbers: a 32-bit
    integer that counts 64ths. *)
Definition int_min : Z := - 2 ^ 31.
Definition int_max : Z := 2 ^ 31 - 1.

(** [QFixed::fromReal(r)], that is [(int)(r * 64)]: the product cut toward
    zero.  Outside the range of [int] the conversion is undefined in C++;
    the model takes what x86-64 gives there and for a NaN, the smallest
    [int]. *)
Definition QFixed_fromReal (r : float) : Z :=
  match int_of_float (fmul r (float_of_Z 64)) with
  | Ok n => if (int_min <=? n) && (n <=? int_max) then n else int_min
  | Raise _ => int_min
  end.

(** [QFixed::toReal()], that is [val / 64.0]. *)
Definition QFixed_toReal (v : Z) : float := float_of_ratio v 64.

(** ** QFont

    The attributes of a font the module reads or writes.  Weights are on
    Qt 5's scale; the two spacings are [QFixed] values and the letter spacing
    type is kept as one flag. *)
Record QFont := mkQFont {
  font_family : string;
  font_pointSizeF : float;
  font_weight : Z;
  font_italic : bool;
  font_underline : bool;
  font_wordSpacing : Z;
  font_letterSpacingIsAbsolute : bool;
  font_letterSpacing : Z
}.

Definition Normal : Z := 50.
Definition Medium : Z := 57.
Definition Bold : Z := 75.

(** [QFont.SpacingType]. *)
Definition PercentageSpacing : Z := 0.
Definition AbsoluteSpacing : Z := 1.

(** [QFont(family, pointSize, weight, italic)]: a point size that is not
    positive becomes 12 and a negative weight becomes [Normal]; the other
    attributes start from their zero values. *)
Definition QFont_new (family : string) (pointSize weight : Z) (italic : bool) : QFont :=
  mkQFont family
          (float_of_Z (if pointSize <=? 0 then 12 else pointSize))
          (if weight <? 0 then Normal else weight)
          italic false 0 false 0.

(** [QFont.bold]: the weight is above [Medium]. *)
Definition bold (f : QFont) : bool := Medium <? font_weight f.

(** [QFont.wordSpacing], [QFont.letterSpacing] and
    [QFont.letterSpacingType]. *)
Definition wordSpacing (f : QFont) : float := QFixed_toReal (font_wordSpacing f).
Definition letterSpacing (f : QFont) : float := QFixed_toReal (font_letterSpacing f).
Definition letterSpacingType (f : QFont) : Z :=
  if font_letterSpacingIsAbsolute f then AbsoluteSpacing else PercentageSpacing.

Definition setFamily (family : string) (f : QFont) : QFont :=
  mkQFont family (font_pointSizeF f) (font_weight f) (font_italic f) (font_underline f)
          (font_wordSpacing f) (font_letterSpacingIsAbsolute f) (font_letterSpacing f).

Definition setWeight (w : Z) (f : QFont) : QFont :=
  mkQFont (font_family f) (font_pointSizeF f) w (font_italic f) (font_underline f)
          (font_wordSpacing f) (font_letterSpacingIsAbsolute f) (font_letterSpacing f).

(** [QFont.setBold]: the weight becomes [Bold] or [Normal]. *)
Definition setBold (enable : bool) (f : QFont) : QFont :=
  setWeight (if enable then Bold else Normal) f.

Definition setItalic (b : bool) (f : QFont) : QFont :=
  mkQFont (font_family f) (font_pointSizeF f) (font_weight f) b (font_underline f)
          (font_wordSpacing f) (font_letterSpacingIsAbsolute f) (font_letterSpacing f).

Definition setUnderline (b : bool) (f : QFont) : QFont :=
  mkQFont (font_family f) (font_pointSizeF f) (font_weight f) (font_italic f) b
          (font_wordSpacing f) (font_letterSpacingIsAbsolute f) (font_letterSpacing f).

(** [QFont.setWordSpacing]: the spacing is stored as a [QFixed]. *)
Definition setWordSpacing (s : float) (f : QFont) : QFont :=
  mkQFont (font_family f) (font_pointSizeF f) (font_weight f) (font_italic f)
          (font_underline f) (QFixed_fromReal s) (font_letterSpacingIsAbsolute f)
          (font_letterSpacing f).

(** [QFont.setLetterSpacing(type, spacing)]: the spacing is stored as a
    [QFixed], the type as whether it is [AbsoluteSpacing]. *)
Definition setLetterSpacing (t : Z) (s : float) (f : QFont) : QFont :=
  mkQFont (font_family f) (font_pointSizeF f) (font_weight f) (font_italic f)
          (font_underline f) (font_wordSpacing f) (t =? AbsoluteSpacing)
          (QFixed_fromReal s).

(** [QFont.setPointSizeF]: a size that is not above zero is refused with a
    warning and the font stays as it is. *)
Definition setPointSizeF (s : float) (f : QFont) : QFont :=
  if fleb s (float_of_Z 0) then f
  else mkQFont (font_family f) s (font_weight f) (font_italic f) (font_underline f)
               (font_wordSpacing f) (font_letterSpacingIsAbsolute f) (font_letterSpacing f).

(** ** QTextCharFormat

    A character format is a bag of properties, each set or not. *)
Record QTextCharFormat := mkCharFormat {
  FontFamily : option string;
  FontPointSize : option float;
  FontWeight : option Z;
  FontItalic : option bool;
  FontUnderline : option bool;
  FontWordSpacing : option float;
  FontLetterSpacingType : option Z;
  FontLetterSpacing : option float;
  ForegroundBrush : option QColor
}.

#[global] Instance QTextCharFormat_eq_dec : EqDecision QTextCharFormat.
Proof. solve_decision. Defined.

(** [QTextCharFormat()]: no property set. *)
Definition QTextCharFormat_new : QTextCharFormat :=
  mkCharFormat None None None None None None None None None.

Definition setFontPointSize (s : float) (f : QTextCharFormat) : QTextCharFormat :=
  mkCharFormat (FontFamily f) (Some s) (FontWeight f) (FontItalic f) (FontUnderline f)
               (FontWordSpacing f) (FontLetterSpacingType f) (FontLetterSpacing f)
               (ForegroundBrush f).

Definition setFontWeight (w : Z) (f : QTextCharFormat) : QTextCharFormat :=
  mkCharFormat (FontFamily f) (FontPointSize f) (Some w) (FontItalic f) (FontUnderline f)
               (FontWordSpacing f) (FontLetterSpacingType f) (FontLetterSpacing f)
               (ForegroundBrush f).

Definition setFontItalic (b : bool) (f : QTextCharFormat) : QTextCharFormat :=
  mkCharFormat (FontFamily f) (FontPointSize f) (FontWeight f) (Some b) (FontUnderline f)
               (FontWordSpacing f) (FontLetterSpacingType f) (FontLetterSpacing f)
               (ForegroundBrush f).

Definition setFontUnderline (b : bool) (f : QTextCharFormat) : QTextCharFormat :=
  mkCharFormat (FontFamily f) (FontPointSize f) (FontWeight f) (FontItalic f) (Some b)
               (FontWordSpacing f) (FontLetterSpacingType f) (FontLetterSpacing f)
               (ForegroundBrush f).

Definition setForeground (c : QColor) (f : QTextCharFormat) : QTextCharFormat :=
  mkCharFormat (FontFamily f) (FontPointSize f) (FontWeight f) (FontItalic f)
               (FontUnderline f) (FontWordSpacing f) (FontLetterSpacingType f)
               (FontLetterSpacing f) (Some c).

(** [QTextCharFormat.fontUnderline]. *)
Definition fontUnderline (f : QTextCharFormat) : bool := default false (FontUnderline f).

(** [QTextFormat.merge]: every property set in [modifier] overrides. *)
Definition merge (modifier f : QTextCharFormat) : QTextCharFormat :=
  let pick {A} (m o : option A) : option A := match m with Some _ => m | None => o end in
  mkCharFormat (pick (FontFamily modifier) (FontFamily f))
               (pick (FontPointSize modifier) (FontPointSize f))
               (pick (FontWeight modifier) (FontWeight f))
               (pick (FontItalic modifier) (FontItalic f))
               (pick (FontUnderline modifier) (FontUnderline f))
               (pick (FontWordSpacing modifier) (FontWordSpacing f))
               (pick (FontLetterSpacingType modifier) (FontLetterSpacingType f))
               (pick (FontLetterSpacing modifier) (FontLetterSpacing f))
               (pick (ForegroundBrush modifier) (ForegroundBrush f)).

(** [QTextCharFormat.setFont(font)], all font properties taken over; the
    point size only when it is positive. *)
Definition setFont (font : QFont) (f : QTextCharFormat) : QTextCharFormat :=
  mkCharFormat (Some (font_family font))
               (if fltb (float_of_Z 0) (font_pointSizeF font)
                then Some (font_pointSizeF font) else FontPointSize f)
               (Some (font_weight font))
               (Some (font_italic font))
               (Some (font_underline font))
               (Some (wordSpacing font))
               (Some (letterSpacingType font))
               (Some (letterSpacing font))
               (ForegroundBrush f).

(** ** The document

    A rich-text document is a sequence of characters (UTF-16 code units),
    each with its character format, cut into blocks by separators.  The
    separator that ends a block carries a character format too: it is the
    block character format of the block that follows it, and the first
    block's is kept apart.  The separator closing the last block is not
    stored: the positions of the document are [0 .. length cells]. *)
Inductive Cell :=
| Chr (c : Z) (f : QTextCharFormat)
| Sep (f : QTextCharFormat).

Definition cell_format (c : Cell) : QTextCharFormat :=
  match c with Chr _ f => f | Sep f => f end.

Definition map_cell_format (g : QTextCharFormat -> QTextCharFormat) (c : Cell) : Cell :=
  match c with Chr x f => Chr x (g f) | Sep f => Sep (g f) end.

(** Two cells of the same kind: both characters, or both separators. *)
Definition same_kind (c c' : Cell) : Prop :=
  match c, c' with
  | Chr _ _, Chr _ _ => True
  | Sep _, Sep _ => True
  | _, _ => False
  end.

(** The character a cell shows in the plain text (a separator reads as a
    line feed). *)
Definition cell_char (c : Cell) : Z :=
  match c with Chr x _ => x | Sep _ => 10 end.

Record QTextDocument := mkDocument {
  initialBlockCharFormat : QTextCharFormat;
  cells : list Cell;
  defaultFont : QFont
}.

(** What the application supplies: the font [QFont()] starts from, and the
    HTML export and import of a piece of document. *)
Class Toolkit := {
  application_font : QFont;
  toHtml : list Cell -> string;
  fromHtml : string -> list Cell
}.

(** A setter applied when the property is set. *)
Definition when_set {A} (p : option A) (set : A -> QFont -> QFont) (q : QFont) : QFont :=
  match p with
  | Some a => set a q
  | None => q
  end.

(** [QTextCharFormat.font]: [QFont()], the application's font, through the
    setter of every property that is set.  The letter spacing is set when its
    type or its amount is, the one that is missing taken as
    [PercentageSpacing] or 0. *)
Definition font `{Toolkit} (f : QTextCharFormat) : QFont :=
  let q := application_font in
  let q := when_set (FontFamily f) setFamily q in
  let q := when_set (FontPointSize f) setPointSizeF q in
  let q := when_set (FontWeight f) setWeight q in
  let q := when_set (FontItalic f) setItalic q in
  let q := when_set (FontUnderline f) setUnderline q in
  let q := when_set (FontWordSpacing f) setWordSpacing q in
  match FontLetterSpacingType f, FontLetterSpacing f with
  | None, None => q
  | t, s => setLetterSpacing (default PercentageSpacing t) (default (float_of_Z 0) s) q
  end.

(** [doc.rootFrame().lastPosition()]. *)
Definition lastPosition (d : QTextDocument) : Z := Z.of_nat (length (cells d)).

(** [QTextDocument.isEmpty]: nothing but the closing separator. *)
Definition isEmpty (d : QTextDocument) : bool := lastPosition d <=? 0.

Definition toPlainText (d : QTextDocument) : list Z := cell_char <$> cells d.

Definition setDefaultFont (f : QFont) (d : QTextDocument) : QTextDocument :=
  mkDocument (initialBlockCharFormat d) (cells d) f.

Definition in_range (pos1 pos2 : Z) (i : nat) : bool :=
  (pos1 <=? Z.of_nat i) && (Z.of_nat i <? pos2).

(** The format of every cell at a position in [pos1, pos2) goes through
    [g] ([QTextDocumentPrivate::setCharFormat]). *)
Definition format_range (g : QTextCharFormat -> QTextCharFormat) (pos1 pos2 : Z)
  (cs : list Cell) : list Cell :=
  imap (fun i c => if in_range pos1 pos2 i then map_cell_format g c else c) cs.

(** The position at which the block holding [pos] starts: one past the last
    separator below [pos].  [start] is the start of the block in progress
    and [i] the position of the head of [cs]. *)
Fixpoint block_position_from (start i : Z) (cs : list Cell) (pos : Z) : Z :=
  match cs with
  | [] => start
  | c :: cs' =>
      if pos <=? i then start
      else match c with
           | Sep _ => block_position_from (i + 1) (i + 1) cs' pos
           | Chr _ _ => block_position_from start (i + 1) cs' pos
           end
  end.

Definition block_position (cs : list Cell) (pos : Z) : Z :=
  block_position_from 0 0 cs pos.

(** The block character format of every block from the one holding [pos1]
    to the one holding [pos2] goes through [g]. *)
Definition format_blocks (g : QTextCharFormat -> QTextCharFormat) (pos1 pos2 : Z)
  (d : QTextDocument) : QTextDocument :=
  let b1 := block_position (cells d) pos1 in
  let b2 := block_position (cells d) pos2 in
  mkDocument
    (if (b1 <=? 0) && (0 <=? b2) then g (initialBlockCharFormat d)
     else initialBlockCharFormat d)
    (imap (fun i c =>
             match c with
             | Sep f =>
                 if (b1 <=? Z.of_nat i + 1) && (Z.of_nat i + 1 <=? b2)
                 then Sep (g f) else c
             | Chr _ _ => c
             end) (cells d))
    (defaultFont d).

(** ** Fragments

    The fragments of a block are its maximal runs of characters with one
    character format, as [QTextBlock.begin()] iterates them. *)
Record QTextFragment := mkFragment {
  frag_position : Z;
  frag_length : Z;
  frag_charFormat : QTextCharFormat
}.

(** The fragments of the cells [cs], the first of which is at position [i];
    [run] is the fragment in progress. *)
Fixpoint fragments_from (i : Z) (run : option QTextFragment) (cs : list Cell)
  : list QTextFragment :=
  let close := match run with Some r => [r] | None => [] end in
  match cs with
  | [] => close
  | Sep _ :: cs' => close ++ fragments_from (i + 1) None cs'
  | Chr _ f :: cs' =>
      match run with
      | Some r =>
          if decide (frag_charFormat r = f)
          then fragments_from (i + 1)
                 (Some (mkFragment (frag_position r) (frag_length r + 1) f)) cs'
          else r :: fragments_from (i + 1) (Some (mkFragment i 1 f)) cs'
      | None => fragments_from (i + 1) (Some (mkFragment i 1 f)) cs'
      end
  end.

(** All fragments of the document, block after block. *)
Definition fragments (d : QTextDocument) : list QTextFragment :=
  fragments_from 0 None (cells d).

(** ** QTextCursor *)

Record QTextCursor := mkCursor {
  position : Z;
  anchor : Z;
  (** the format the next typed character takes, when one was set since the
      cursor last moved *)
  currentCharFormat : option QTextCharFormat
}.

Inductive MoveMode := MoveAnchor | KeepAnchor.

Definition hasSelection (c : QTextCursor) : bool := negb (position c =? anchor c).
Definition selectionStart (c : QTextCursor) : Z := Z.min (position c) (anchor c).
Definition selectionEnd (c : QTextCursor) : Z := Z.max (position c) (anchor c).

(** [QTextCursor.Start] and [QTextCursor.End]. *)
Inductive MoveOperation := MoveStart | MoveEnd.

(** [QTextCursor.setPosition]: a position outside the document is refused
    with a warning and the cursor stays as it is; a move forgets the
    cursor's own character format. *)
Definition setPosition (pos : Z) (m : MoveMode) (d : QTextDocument) (c : QTextCursor)
  : QTextCursor :=
  if (pos <? 0) || (lastPosition d <? pos) then c
  else
    mkCursor pos
             (match m with MoveAnchor => pos | KeepAnchor => anchor c end)
             (if pos =? position c then currentCharFormat c else None).

(** [QTextCursor.clearSelection]: the anchor joins the position, and the
    cursor's own character format is forgotten. *)
Definition clearSelection (c : QTextCursor) : QTextCursor :=
  mkCursor (position c) (position c) None.

(** [QTextCursor.movePosition] to the start or the end of the document: the
    cursor's own character format is forgotten whether the cursor moves or
    not. *)
Definition movePosition (op : MoveOperation) (m : MoveMode) (d : QTextDocument)
  (c : QTextCursor) : QTextCursor :=
  let newPosition := match op with MoveStart => 0 | MoveEnd => lastPosition d end in
  mkCursor newPosition
           (match m with MoveAnchor => newPosition | KeepAnchor => anchor c end)
           None.

(** [QTextCursor.select(QTextCursor.Document)]: the selection is cleared, the
    cursor goes to the start, then to the end with the anchor kept. *)
Definition select_Document (d : QTextDocument) (c : QTextCursor) : QTextCursor :=
  movePosition MoveEnd KeepAnchor d (movePosition MoveStart MoveAnchor d (clearSelection c)).

(** [QTextCursor.charFormat]: the cursor's own format when it has one; else
    the format of the character at the cursor when the cursor is at the start
    of a block that is not empty, and of the character before it otherwise;
    the first block's character format when there is no such character. *)
Definition charFormat (d : QTextDocument) (c : QTextCursor) : QTextCharFormat :=
  match currentCharFormat c with
  | Some f => f
  | None =>
      let at_block_start := position c =? block_position (cells d) (position c) in
      let block_not_empty :=
        match cells d !! Z.to_nat (position c) with
        | Some (Chr _ _) => true
        | _ => false
        end in
      let pos := if at_block_start && block_not_empty then position c
                 else position c - 1 in
      if pos <? 0 then initialBlockCharFormat d
      else match cells d !! Z.to_nat pos with
           | Some cell => cell_format cell
           | None => initialBlockCharFormat d
           end
  end.

(** [QTextCursor.setCharFormat]: on the selection, or on the cursor itself
    when nothing is selected. *)
Definition setCharFormat (f : QTextCharFormat) (d : QTextDocument) (c : QTextCursor)
  : QTextDocument * QTextCursor :=
  if hasSelection c then
    (mkDocument (initialBlockCharFormat d)
                (format_range (fun _ => f) (selectionStart c) (selectionEnd c) (cells d))
                (defaultFont d), c)
  else (d, mkCursor (position c) (anchor c) (Some f)).

(** [QTextCursor.mergeCharFormat]. *)
Definition mergeCharFormat (modifier : QTextCharFormat) (d : QTextDocument) (c : QTextCursor)
  : QTextDocument * QTextCursor :=
  if hasSelection c then
    (mkDocument (initialBlockCharFormat d)
                (format_range (merge modifier) (selectionStart c) (selectionEnd c) (cells d))
                (defaultFont d), c)
  else (d, mkCursor (position c) (anchor c) (Some (merge modifier (charFormat d c)))).

(** [QTextCursor.mergeBlockCharFormat]: the blocks the selection touches. *)
Definition mergeBlockCharFormat (modifier : QTextCharFormat) (d : QTextDocument)
  (c : QTextCursor) : QTextDocument :=
  format_blocks (merge modifier) (selectionStart c) (selectionEnd c) d.

(** [QTextCursor.selection]: the selected piece of the document. *)
Definition selection (d : QTextDocument) (c : QTextCursor) : list Cell :=
  take (Z.to_nat (selectionEnd c - selectionStart c))
       (drop (Z.to_nat (selectionStart c)) (cells d)).

(** [QTextCursor.insertHtml]: the selection is replaced by what the HTML
    parses to; the cursor ends up behind it, with nothing selected. *)
Definition insertHtml `{Toolkit} (html : string) (d : QTextDocument) (c : QTextCursor)
  : QTextDocument * QTextCursor :=
  let inserted := fromHtml html in
  let pos := selectionStart c + Z.of_nat (length inserted) in
  (mkDocument (initialBlockCharFormat d)
              (take (Z.to_nat (selectionStart c)) (cells d) ++ inserted ++
               drop (Z.to_nat (selectionEnd c)) (cells d))
              (defaultFont d),
   mkCursor pos pos None).

End Qt.
Import Qt.

(* ===================================================================== *)
(** * Text block items                                                     *)
(* ===================================================================== *)

(** [Qt.AlignmentFlag], the three values the module uses. *)
Inductive AlignmentFlag := AlignLeft | AlignCenter | AlignRight.

(** [FontFormat] ([ui/misc.py]): the attributes this module reads and
    writes. *)
Module FontFormat.
Record t := mk {
  family : string;
  size : float;
  stroke_width : float;
  frgb : list Z;
  srgb : list Z;
  bold : bool;
  underline : bool;
  italic : bool;
  alignment : Z;
  vertical : bool;
  weight : Z;
  line_spacing : float
}.
End FontFormat.

(** A [TextBlkItem] ([ui/textitem.py], a [QGraphicsTextItem]): the
    attributes this module reads ([stroke_width], [textCursor()],
    [document()], [idx]) and, below them, what the item's own setters keep. *)
Record TextBlkItem := mkTextBlkItem {
  stroke_width : float;
  textCursor : QTextCursor;
  document : QTextDocument;
  idx : Z;
  item_alignment : AlignmentFlag;
  item_stroke_color : list Z;
  item_line_spacing : float;
  item_vertical : bool;
  background_repaints : nat
}.

(** [QGraphicsTextItem.setTextCursor]. *)
Definition setTextCursor (c : QTextCursor) (b : TextBlkItem) : TextBlkItem :=
  mkTextBlkItem (stroke_width b) c (document b) (idx b) (item_alignment b)
                (item_stroke_color b) (item_line_spacing b) (item_vertical b)
                (background_repaints b).

(** The item after its document was edited in place. *)
Definition with_document (d : QTextDocument) (b : TextBlkItem) : TextBlkItem :=
  mkTextBlkItem (stroke_width b) (textCursor b) d (idx b) (item_alignment b)
                (item_stroke_color b) (item_line_spacing b) (item_vertical b)
                (background_repaints b).

(** The code of the repository this module calls and that lives in other
    files: [set_html_color] of [ui/misc.py] and the methods of [TextBlkItem]
    in [ui/textitem.py].  They are parameters of the development. *)
Class Repository := {
  set_html_color : string -> list Z -> string;
  TextBlkItem_setAlignment : AlignmentFlag -> TextBlkItem -> TextBlkItem;
  TextBlkItem_setStrokeWidth : float -> TextBlkItem -> TextBlkItem;
  TextBlkItem_setStrokeColor : list Z -> TextBlkItem -> TextBlkItem;
  TextBlkItem_setLineSpacing : float -> TextBlkItem -> TextBlkItem;
  TextBlkItem_setVertical : bool -> TextBlkItem -> TextBlkItem;
  TextBlkItem_repaint_background : TextBlkItem -> TextBlkItem;
  TextBlkItem_get_fontformat : TextBlkItem -> FontFormat.t
}.

(* ===================================================================== *)
(** * restore_textcursor and the formatting operations                     *)
(* ===================================================================== *)

(** A formatting function as the decorator receives it, its arguments after
    the cursor already given: it works on the item and on the cursor object
    it is handed, or raises.  (An exception ends the operation; the model
    does not keep the partly edited item.) *)
Definition Formatting : Type :=
  TextBlkItem -> QTextCursor -> result (TextBlkItem * QTextCursor).

(** Lines 32-36 of [wrapper]: the cursor put back where it was. *)
Definition restored_cursor (set_all : bool) (pos1 pos2 : Z) (doc : QTextDocument)
  (cursor : QTextCursor) : QTextCursor :=
  if negb set_all then
    setPosition (Z.max pos1 pos2) KeepAnchor doc
      (setPosition (Z.min pos1 pos2) MoveAnchor doc cursor)
  else setPosition pos1 MoveAnchor doc cursor.

(** Lines 38-39 of [wrapper]: the background is repainted when the stroke
    width is no longer what it was. *)
Definition repaint_if_changed `{Repository} (stroke_width_before : float)
  (blkitem : TextBlkItem) : TextBlkItem :=
  if negb (feqb (stroke_width blkitem) stroke_width_before)
  then TextBlkItem_repaint_background blkitem
  else blkitem.

(** Lines 32-39 of [wrapper], after the formatting function returned. *)
Definition put_back `{Repository} (stroke_width_before : float) (set_all : bool)
  (pos1 pos2 : Z) (blkitem : TextBlkItem) (cursor : QTextCursor) : TextBlkItem :=
  let cursor := restored_cursor set_all pos1 pos2 (document blkitem) cursor in
  let blkitem := setTextCursor cursor blkitem in
  repaint_if_changed stroke_width_before blkitem.

(** [restore_textcursor(formatting_func)]: the [wrapper] it returns, applied
    to [blkitem]; the result is the item as the call leaves it. *)
Definition restore_textcursor `{Repository} (formatting_func : Formatting)
  (blkitem : option TextBlkItem) : result (option TextBlkItem) :=
  match blkitem with
  | None => Ok None
  | Some blkitem =>
      let stroke_width_before := stroke_width blkitem in
      let cursor := textCursor blkitem in
      let set_all := negb (hasSelection cursor) in
      let pos1 := position cursor in
      let pos2 := anchor cursor in
      let cursor := if set_all then select_Document (document blkitem) cursor
                    else cursor in
      '(blkitem, cursor) ← formatting_func blkitem cursor;
      Ok (Some (put_back stroke_width_before set_all pos1 pos2 blkitem cursor))
  end.

(** The cursor [wrapper] hands to the formatting function (lines 23-28). *)
Definition effective_cursor (blkitem : TextBlkItem) : QTextCursor :=
  if hasSelection (textCursor blkitem) then textCursor blkitem
  else select_Document (document blkitem) (textCursor blkitem).

Section Operations.
Context `{Toolkit} `{Repository}.

(** [set_textblk_color], undecorated. *)
Definition color_func (rgb : list Z) : Formatting := fun blkitem cursor =>
  if negb (isEmpty (document blkitem)) then
    let fraghtml := toHtml (selection (document blkitem) cursor) in
    let '(doc, cursor) :=
      insertHtml (set_html_color fraghtml rgb) (document blkitem) cursor in
    Ok (with_document doc blkitem, cursor)
  else
    let fmt := charFormat (document blkitem) cursor in
    let fmt := setForeground (QColor_of rgb) fmt in
    let '(doc, cursor) := setCharFormat fmt (document blkitem) cursor in
    Ok (with_document doc blkitem, cursor).

Definition set_textblk_color (blkitem : option TextBlkItem) (rgb : list Z) :=
  restore_textcursor (color_func rgb) blkitem.

(** [set_textblk_fontsize], undecorated ([reLayout] changes nothing the model
    keeps). *)
Definition fontsize_func (fontsize : float) : Formatting := fun blkitem cursor =>
  let format := setFontPointSize fontsize QTextCharFormat_new in
  let '(doc, cursor) := mergeCharFormat format (document blkitem) cursor in
  let lastpos := lastPosition doc in
  let doc :=
    if (selectionStart cursor =? 0) && (selectionEnd cursor =? lastpos) then
      let font := defaultFont doc in
      let font := setPointSizeF fontsize font in
      setDefaultFont font doc
    else doc in
  let doc := mergeBlockCharFormat format doc cursor in
  Ok (with_document doc blkitem, cursor).

Definition set_textblk_fontsize (blkitem : option TextBlkItem) (fontsize : float) :=
  restore_textcursor (fontsize_func fontsize) blkitem.

(** [set_textblk_weight], [set_textblk_italic] and [set_textblk_underline],
    undecorated: one property merged into the selection. *)
Definition merge_func (format : QTextCharFormat) : Formatting := fun blkitem cursor =>
  let '(doc, cursor) := mergeCharFormat format (document blkitem) cursor in
  Ok (with_document doc blkitem, cursor).

Definition set_textblk_weight (blkitem : option TextBlkItem) (weight : Z) :=
  restore_textcursor (merge_func (setFontWeight weight QTextCharFormat_new)) blkitem.

Definition set_textblk_italic (blkitem : option TextBlkItem) (italic : bool) :=
  restore_textcursor (merge_func (setFontItalic italic QTextCharFormat_new)) blkitem.

Definition set_textblk_underline (blkitem : option TextBlkItem) (underline : bool) :=
  restore_textcursor (merge_func (setFontUnderline underline QTextCharFormat_new)) blkitem.

(** [set_textblk_alignment], undecorated. *)
Definition alignment_func (alignment : Z) : Formatting := fun blkitem cursor =>
  alignment ← index [AlignLeft; AlignCenter; AlignRight] alignment;
  Ok (TextBlkItem_setAlignment alignment blkitem, cursor).

Definition set_textblk_alignment (blkitem : option TextBlkItem) (alignment : Z) :=
  restore_textcursor (alignment_func alignment) blkitem.

(** [set_textblk_strokewidth], undecorated. *)
Definition strokewidth_func (stroke_width : float) : Formatting := fun blkitem cursor =>
  Ok (TextBlkItem_setStrokeWidth stroke_width blkitem, cursor).

Definition set_textblk_strokewidth (blkitem : option TextBlkItem) (stroke_width : float) :=
  restore_textcursor (strokewidth_func stroke_width) blkitem.

(** [set_textblk_strokecolor], undecorated. *)
Definition strokecolor_func (stroke_color : list Z) : Formatting := fun blkitem cursor =>
  Ok (TextBlkItem_setStrokeColor stroke_color blkitem, cursor).

Definition set_textblk_strokecolor (blkitem : option TextBlkItem) (stroke_color : list Z) :=
  restore_textcursor (strokecolor_func stroke_color) blkitem.

(** Lines 122-130 of [set_textblk_family]: the format written over the part
    of a fragment inside the selection.  [QFont]'s constructor takes an
    integer point size, so the float [pointSizeF()] goes through [int]. *)
Definition family_format (family : string) (cfmt : QTextCharFormat)
  : result QTextCharFormat :=
  let under_line := fontUnderline cfmt in
  let cfont := font cfmt in
  pointSize ← int_of_float (font_pointSizeF cfont);
  let font := QFont_new family pointSize (font_weight cfont) (font_italic cfont) in
  let font := setBold (Qt.bold font) font in
  let font := setWordSpacing (wordSpacing cfont) font in
  let font := setLetterSpacing (letterSpacingType cfont) (letterSpacing cfont) font in
  let cfmt := setFont font cfmt in
  Ok (setFontUnderline under_line cfmt).

(** The body of the inner loop (lines 115-134) for one fragment. *)
Definition family_step (family : string) (sel_start sel_end : Z)
  (state : result (QTextDocument * QTextCursor)) (fragment : QTextFragment)
  : result (QTextDocument * QTextCursor) :=
  '(doc, cursor) ← state;
  let frag_start := frag_position fragment in
  let frag_end := frag_start + frag_length fragment in
  let pos2 := Z.min frag_end sel_end in
  let pos1 := Z.max frag_start sel_start in
  if pos1 <? pos2 then
    cfmt ← family_format family (frag_charFormat fragment);
    let cursor := setPosition pos1 MoveAnchor doc cursor in
    let cursor := setPosition pos2 KeepAnchor doc cursor in
    Ok (setCharFormat cfmt doc cursor)
  else Ok (doc, cursor).

(** [set_textblk_family], undecorated.  The two loops walk the blocks and
    their fragments; the model takes the walk over the fragments the document
    has when the walk starts.  The iterator of the toolkit is live: it makes
    the same walk as long as a format written does not join the fragment the
    iterator stands on to the one before it, as in a document with one
    character format per block, all of it selected. *)
Definition family_func (family : string) : Formatting := fun blkitem cursor =>
  let doc := document blkitem in
  let sel_start := selectionStart cursor in
  let sel_end := selectionEnd cursor in
  '(doc, cursor) ← foldl (family_step family sel_start sel_end) (Ok (doc, cursor))
                         (fragments doc);
  Ok (with_document doc blkitem, cursor).

Definition set_textblk_family (blkitem : option TextBlkItem) (family : string) :=
  restore_textcursor (family_func family) blkitem.

(** [set_textblk_linespacing], undecorated. *)
Definition linespacing_func (line_spacing : float) : Formatting := fun blkitem cursor =>
  Ok (TextBlkItem_setLineSpacing line_spacing blkitem, cursor).

Definition set_textblk_linespacing (blkitem : option TextBlkItem) (line_spacing : float) :=
  restore_textcursor (linespacing_func line_spacing) blkitem.

End Operations.

(* ===================================================================== *)
(** * FontFormatPanel                                                      *)
(* ===================================================================== *)

(** Widgets as the application knows them: each is an object, with at most
    one parent. *)
Definition Widget := nat.

Record QApplication := mkApplication {
  focusWidget : option Widget;
  parentWidget : gmap Widget Widget
}.

(** [FormatGroupBtn]: the three check boxes. *)
Record FormatGroupBtn := mkFormatGroupBtn {
  boldBtn : bool;
  italicBtn : bool;
  underlineBtn : bool
}.

(** The family combo box: its text, and whether it has keyboard focus. *)
Record QFontComboBox := mkFontComboBox {
  familybox_currentText : string;
  familybox_hasFocus : bool
}.

(** The controls laid out in the panel.  A colour picker stands for the
    colour [rgb()] returns. *)
Record Controls := mkControls {
  familybox : QFontComboBox;
  fontsizebox : FontSizeBox;
  lineSpacingBox : SizeComboBox;
  colorPicker : list Z;
  alignBtnGroup : AlignmentBtnGroup;
  formatBtnGroup : FormatGroupBtn;
  verticalChecker : bool;
  strokeColorPicker : list Z;
  strokeWidthBox : SizeComboBox
}.

(** A [FontFormat] object is known by its address: [formats] holds the
    objects, and [active_format] and [global_format] point into it ([None]
    is Python's [None]).  [FontFormat] defines no comparison of its own, so
    [==] on two of them compares the addresses. *)
Definition loc := nat.

Record FontFormatPanel := mkPanel {
  self : Widget;
  app : QApplication;
  formats : list FontFormat.t;
  textblk_item : option TextBlkItem;
  active_format : option loc;
  global_format : option loc;
  restoring_textblk : bool;
  focusOnColorDialog : bool;
  controls : Controls;
  global_fontfmt_str : string;
  fontfmtLabel : string
}.

Definition with_formats (h : list FontFormat.t) (p : FontFormatPanel) : FontFormatPanel :=
  mkPanel (self p) (app p) h (textblk_item p) (active_format p) (global_format p)
          (restoring_textblk p) (focusOnColorDialog p) (controls p)
          (global_fontfmt_str p) (fontfmtLabel p).

Definition with_textblk_item (b : option TextBlkItem) (p : FontFormatPanel) : FontFormatPanel :=
  mkPanel (self p) (app p) (formats p) b (active_format p) (global_format p)
          (restoring_textblk p) (focusOnColorDialog p) (controls p)
          (global_fontfmt_str p) (fontfmtLabel p).

Definition with_active_format (l : option loc) (p : FontFormatPanel) : FontFormatPanel :=
  mkPanel (self p) (app p) (formats p) (textblk_item p) l (global_format p)
          (restoring_textblk p) (focusOnColorDialog p) (controls p)
          (global_fontfmt_str p) (fontfmtLabel p).

Definition with_focusOnColorDialog (b : bool) (p : FontFormatPanel) : FontFormatPanel :=
  mkPanel (self p) (app p) (formats p) (textblk_item p) (active_format p) (global_format p)
          (restoring_textblk p) b (controls p)
          (global_fontfmt_str p) (fontfmtLabel p).

Definition with_controls (c : Controls) (p : FontFormatPanel) : FontFormatPanel :=
  mkPanel (self p) (app p) (formats p) (textblk_item p) (active_format p) (global_format p)
          (restoring_textblk p) (focusOnColorDialog p) c
          (global_fontfmt_str p) (fontfmtLabel p).

(** [self.fontfmtLabel.setText]. *)
Definition setText (s : string) (p : FontFormatPanel) : FontFormatPanel :=
  mkPanel (self p) (app p) (formats p) (textblk_item p) (active_format p) (global_format p)
          (restoring_textblk p) (focusOnColorDialog p) (controls p)
          (global_fontfmt_str p) s.

(** Reading [obj.attr] and writing [obj.attr = v] through a reference that may
    be [None]: an [AttributeError] then. *)
Definition deref (l : option loc) : Method FontFormatPanel FontFormat.t := fun p =>
  match l ≫= (formats p !!.) with
  | Some f => mkOutcome p [] (Ok f)
  | None => mkOutcome p [] (Raise AttributeError)
  end.

Definition assign (l : option loc) (set : FontFormat.t -> FontFormat.t)
  : Method FontFormatPanel unit := fun p =>
  match l with
  | Some a =>
      match formats p !! a with
      | Some f => mkOutcome (with_formats (<[a := set f]> (formats p)) p) [] (Ok tt)
      | None => mkOutcome p [] (Raise AttributeError)
      end
  | None => mkOutcome p [] (Raise AttributeError)
  end.

(** Attribute writes on a [FontFormat]. *)
Definition set_frgb (v : list Z) (f : FontFormat.t) : FontFormat.t :=
  FontFormat.mk (FontFormat.family f) (FontFormat.size f) (FontFormat.stroke_width f) v
    (FontFormat.srgb f) (FontFormat.bold f) (FontFormat.underline f) (FontFormat.italic f)
    (FontFormat.alignment f) (FontFormat.vertical f) (FontFormat.weight f)
    (FontFormat.line_spacing f).

Definition set_srgb (v : list Z) (f : FontFormat.t) : FontFormat.t :=
  FontFormat.mk (FontFormat.family f) (FontFormat.size f) (FontFormat.stroke_width f)
    (FontFormat.frgb f) v (FontFormat.bold f) (FontFormat.underline f) (FontFormat.italic f)
    (FontFormat.alignment f) (FontFormat.vertical f) (FontFormat.weight f)
    (FontFormat.line_spacing f).

Definition set_size (v : float) (f : FontFormat.t) : FontFormat.t :=
  FontFormat.mk (FontFormat.family f) v (FontFormat.stroke_width f)
    (FontFormat.frgb f) (FontFormat.srgb f) (FontFormat.bold f) (FontFormat.underline f)
    (FontFormat.italic f) (FontFormat.alignment f) (FontFormat.vertical f)
    (FontFormat.weight f) (FontFormat.line_spacing f).

Definition set_family (v : string) (f : FontFormat.t) : FontFormat.t :=
  FontFormat.mk v (FontFormat.size f) (FontFormat.stroke_width f)
    (FontFormat.frgb f) (FontFormat.srgb f) (FontFormat.bold f) (FontFormat.underline f)
    (FontFormat.italic f) (FontFormat.alignment f) (FontFormat.vertical f)
    (FontFormat.weight f) (FontFormat.line_spacing f).

Definition set_weight (v : Z) (f : FontFormat.t) : FontFormat.t :=
  FontFormat.mk (FontFormat.family f) (FontFormat.size f) (FontFormat.stroke_width f)
    (FontFormat.frgb f) (FontFormat.srgb f) (FontFormat.bold f) (FontFormat.underline f)
    (FontFormat.italic f) (FontFormat.alignment f) (FontFormat.vertical f) v
    (FontFormat.line_spacing f).

Definition set_bold (v : bool) (f : FontFormat.t) : FontFormat.t :=
  FontFormat.mk (FontFormat.family f) (FontFormat.size f) (FontFormat.stroke_width f)
    (FontFormat.frgb f) (FontFormat.srgb f) v (FontFormat.underline f)
    (FontFormat.italic f) (FontFormat.alignment f) (FontFormat.vertical f)
    (FontFormat.weight f) (FontFormat.line_spacing f).

Definition set_underline (v : bool) (f : FontFormat.t) : FontFormat.t :=
  FontFormat.mk (FontFormat.family f) (FontFormat.size f) (FontFormat.stroke_width f)
    (FontFormat.frgb f) (FontFormat.srgb f) (FontFormat.bold f) v
    (FontFormat.italic f) (FontFormat.alignment f) (FontFormat.vertical f)
    (FontFormat.weight f) (FontFormat.line_spacing f).

Definition set_italic (v : bool) (f : FontFormat.t) : FontFormat.t :=
  FontFormat.mk (FontFormat.family f) (FontFormat.size f) (FontFormat.stroke_width f)
    (FontFormat.frgb f) (FontFormat.srgb f) (FontFormat.bold f) (FontFormat.underline f)
    v (FontFormat.alignment f) (FontFormat.vertical f)
    (FontFormat.weight f) (FontFormat.line_spacing f).

Definition set_alignment_attr (v : Z) (f : FontFormat.t) : FontFormat.t :=
  FontFormat.mk (FontFormat.family f) (FontFormat.size f) (FontFormat.stroke_width f)
    (FontFormat.frgb f) (FontFormat.srgb f) (FontFormat.bold f) (FontFormat.underline f)
    (FontFormat.italic f) v (FontFormat.vertical f)
    (FontFormat.weight f) (FontFormat.line_spacing f).

Definition set_vertical (v : bool) (f : FontFormat.t) : FontFormat.t :=
  FontFormat.mk (FontFormat.family f) (FontFormat.size f) (FontFormat.stroke_width f)
    (FontFormat.frgb f) (FontFormat.srgb f) (FontFormat.bold f) (FontFormat.underline f)
    (FontFormat.italic f) (FontFormat.alignment f) v
    (FontFormat.weight f) (FontFormat.line_spacing f).

Definition set_stroke_width (v : float) (f : FontFormat.t) : FontFormat.t :=
  FontFormat.mk (FontFormat.family f) (FontFormat.size f) v
    (FontFormat.frgb f) (FontFormat.srgb f) (FontFormat.bold f) (FontFormat.underline f)
    (FontFormat.italic f) (FontFormat.alignment f) (FontFormat.vertical f)
    (FontFormat.weight f) (FontFormat.line_spacing f).

Definition set_line_spacing (v : float) (f : FontFormat.t) : FontFormat.t :=
  FontFormat.mk (FontFormat.family f) (FontFormat.size f) (FontFormat.stroke_width f)
    (FontFormat.frgb f) (FontFormat.srgb f) (FontFormat.bold f) (FontFormat.underline f)
    (FontFormat.italic f) (FontFormat.alignment f) (FontFormat.vertical f)
    (FontFormat.weight f) v.

Section Panel.
Context `{Toolkit} `{Repository}.

(** A [set_textblk_*] call on [self.textblk_item]: the item is edited in
    place, or the exception passes through. *)
Definition on_textblk_item (op : option TextBlkItem -> result (option TextBlkItem))
  : Method FontFormatPanel unit := fun p =>
  match op (textblk_item p) with
  | Ok b => mkOutcome (with_textblk_item b p) [] (Ok tt)
  | Raise e => mkOutcome p [] (Raise e)
  end.

(** [FontFormatPanel.restoreTextBlkItem]. *)
Definition restoreTextBlkItem : Method FontFormatPanel unit :=
  p ← get;
  if decide (active_format p = global_format p) then emit global_format_changed
  else mret tt.

(** [FontFormatPanel.changingColor]. *)
Definition changingColor : Method FontFormatPanel unit :=
  modify (with_focusOnColorDialog true).

(** [FontFormatPanel.onColorChanged]. *)
Definition onColorChanged (is_valid : bool) : Method FontFormatPanel unit :=
  p ← get;
  assign (active_format p) (set_frgb (colorPicker (controls p)));;
  modify (with_focusOnColorDialog false);;
  restoreTextBlkItem;;
  if is_valid then
    f ← deref (active_format p);
    on_textblk_item (fun b => set_textblk_color b (FontFormat.frgb f))
  else mret tt.

(** [FontFormatPanel.onStrokeColorChanged]. *)
Definition onStrokeColorChanged (is_valid : bool) : Method FontFormatPanel unit :=
  p ← get;
  assign (active_format p) (set_srgb (strokeColorPicker (controls p)));;
  modify (with_focusOnColorDialog false);;
  restoreTextBlkItem;;
  if is_valid then
    f ← deref (active_format p);
    on_textblk_item (fun b => set_textblk_strokecolor b (FontFormat.srgb f))
  else mret tt.

(** [FontFormatPanel.onApplyFontsize]. *)
Definition onApplyFontsize (font_size : float) : Method FontFormatPanel unit :=
  p ← get;
  assign (active_format p) (set_size font_size);;
  restoreTextBlkItem;;
  f ← deref (active_format p);
  on_textblk_item (fun b => set_textblk_fontsize b (FontFormat.size f)).

(** [FontFormatPanel.onfontFamilyChanged]. *)
Definition onfontFamilyChanged : Method FontFormatPanel unit :=
  p ← get;
  if familybox_hasFocus (familybox (controls p)) then
    assign (active_format p) (set_family (familybox_currentText (familybox (controls p))));;
    restoreTextBlkItem;;
    f ← deref (active_format p);
    on_textblk_item (fun b => set_textblk_family b (FontFormat.family f))
  else mret tt.

(** [FontFormatPanel.onfontBoldChanged]. *)
Definition onfontBoldChanged (checked : bool) : Method FontFormatPanel unit :=
  p ← get;
  (if checked then
     assign (active_format p) (set_weight Bold);;
     assign (active_format p) (set_bold true)
   else
     assign (active_format p) (set_weight Normal);;
     assign (active_format p) (set_bold false));;
  restoreTextBlkItem;;
  f ← deref (active_format p);
  on_textblk_item (fun b => set_textblk_weight b (FontFormat.weight f)).

(** [FontFormatPanel.onfontUnderlineChanged]. *)
Definition onfontUnderlineChanged (checked : bool) : Method FontFormatPanel unit :=
  p ← get;
  assign (active_format p) (set_underline checked);;
  restoreTextBlkItem;;
  f ← deref (active_format p);
  on_textblk_item (fun b => set_textblk_underline b (FontFormat.underline f)).

(** [FontFormatPanel.onfontItalicChanged]. *)
Definition onfontItalicChanged (checked : bool) : Method FontFormatPanel unit :=
  p ← get;
  assign (active_format p) (set_italic checked);;
  restoreTextBlkItem;;
  f ← deref (active_format p);
  on_textblk_item (fun b => set_textblk_italic b (FontFormat.italic f)).

(** [FontFormatPanel.onAlignmentChanged]: the item first, the signal after. *)
Definition onAlignmentChanged (alignment : Z) : Method FontFormatPanel unit :=
  p ← get;
  assign (active_format p) (set_alignment_attr alignment);;
  f ← deref (active_format p);
  on_textblk_item (fun b => set_textblk_alignment b (FontFormat.alignment f));;
  restoreTextBlkItem.

(** [FontFormatPanel.onOrientationChanged]. *)
Definition onOrientationChanged : Method FontFormatPanel unit :=
  p ← get;
  assign (active_format p) (set_vertical (verticalChecker (controls p)));;
  restoreTextBlkItem;;
  f ← deref (active_format p);
  p ← get;
  match textblk_item p with
  | Some b =>
      modify (with_textblk_item (Some (TextBlkItem_setVertical (FontFormat.vertical f) b)))
  | None => mret tt
  end.

(** [FontFormatPanel.update_stroke_width]. *)
Definition update_stroke_width (value : float) : Method FontFormatPanel unit :=
  p ← get;
  assign (active_format p) (set_stroke_width value);;
  restoreTextBlkItem;;
  f ← deref (active_format p);
  on_textblk_item (fun b => set_textblk_strokewidth b (FontFormat.stroke_width f)).

(** [FontFormatPanel.onSrokeWidthChanged]. *)
Definition onSrokeWidthChanged : Method FontFormatPanel unit :=
  p ← get;
  v ← lift (value (strokeWidthBox (controls p)));
  update_stroke_width v.

(** [FontFormatPanel.update_line_spacing]. *)
Definition update_line_spacing (value : float) : Method FontFormatPanel unit :=
  p ← get;
  assign (active_format p) (set_line_spacing value);;
  restoreTextBlkItem;;
  f ← deref (active_format p);
  on_textblk_item (fun b => set_textblk_linespacing b (FontFormat.line_spacing f)).

(** [FontFormatPanel.onLinespacingChanged]. *)
Definition onLinespacingChanged : Method FontFormatPanel unit :=
  p ← get;
  v ← lift (value (lineSpacingBox (controls p)));
  update_line_spacing v.

(** What [set_active_format] shows in the controls for [font_format], the
    size as the text of its integer part [n]. *)
Definition show_format (font_format : FontFormat.t) (n : Z) (c : Controls) : Controls :=
  mkControls
    (mkFontComboBox (FontFormat.family font_format) (familybox_hasFocus (familybox c)))
    (mkFontSizeBox (setCurrentText (float_of_Z n) (fcombobox (fontsizebox c))))
    (setValue (FontFormat.line_spacing font_format) (lineSpacingBox c))
    (FontFormat.frgb font_format)
    (setAlignment (FontFormat.alignment font_format) (alignBtnGroup c))
    (mkFormatGroupBtn (FontFormat.bold font_format) (FontFormat.italic font_format)
                      (FontFormat.underline font_format))
    (FontFormat.vertical font_format)
    (FontFormat.srgb font_format)
    (setValue (FontFormat.stroke_width font_format) (strokeWidthBox c)).

(** [FontFormatPanel.set_active_format].  The reference is stored first; the
    controls are then set from the object's attributes.  (The signals the
    controls raise while they are being set are not followed.) *)
Definition set_active_format (font_format : option loc) : Method FontFormatPanel unit :=
  modify (with_active_format font_format);;
  f ← deref font_format;
  n ← lift (int_of_float (FontFormat.size f));
  modify (fun p => with_controls (show_format f n (controls p)) p).

(** Whether keyboard focus is on the format options (lines 543-550). *)
Definition focus_on_fmtoptions (p : FontFormatPanel) : bool :=
  let focus_w := focusWidget (app p) in
  let focus_p := focus_w ≫= (parentWidget (app p) !!.) in
  if focusOnColorDialog p then true
  else match focus_p with
       | Some focus_p =>
           bool_decide (focus_p = self p)
           || bool_decide (parentWidget (app p) !! focus_p = Some (self p))
       | None => false
       end.

(** [FontFormatPanel.set_textblk_item].  [get_fontformat] returns an object
    of its own, stored at a fresh address. *)
Definition set_textblk_item (textblk_item : option TextBlkItem)
  : Method FontFormatPanel unit :=
  match textblk_item with
  | None =>
      p ← get;
      if negb (focus_on_fmtoptions p) then
        modify (with_textblk_item None);;
        set_active_format (global_format p);;
        modify (setText (global_fontfmt_str p))
      else mret tt
  | Some item =>
      p ← get;
      if negb (restoring_textblk p) then
        let blk_fmt := length (formats p) in
        modify (with_formats (formats p ++ [TextBlkItem_get_fontformat item]));;
        modify (with_textblk_item (Some item));;
        set_active_format (Some blk_fmt);;
        modify (setText ("TextBlock #" +:+ pretty (idx item)))
      else mret tt
  end.

End Panel.

(* --------------------------------------------------------------------- *)
(** ** The format-change handlers as one family                            *)
(* --------------------------------------------------------------------- *)

(** The handlers connected to the controls, each with what its signal
    carries. *)
Inductive Handler :=
| OnColorChanged (is_valid : bool)
| OnStrokeColorChanged (is_valid : bool)
| OnApplyFontsize (font_size : float)
| OnfontFamilyChanged
| OnfontBoldChanged (checked : bool)
| OnfontUnderlineChanged (checked : bool)
| OnfontItalicChanged (checked : bool)
| OnAlignmentChanged (alignment : Z)
| OnOrientationChanged
| OnSrokeWidthChanged
| OnLinespacingChanged.

Definition handle `{Toolkit} `{Repository} (h : Handler) : Method FontFormatPanel unit :=
  match h with
  | OnColorChanged is_valid => onColorChanged is_valid
  | OnStrokeColorChanged is_valid => onStrokeColorChanged is_valid
  | OnApplyFontsize font_size => onApplyFontsize font_size
  | OnfontFamilyChanged => onfontFamilyChanged
  | OnfontBoldChanged checked => onfontBoldChanged checked
  | OnfontUnderlineChanged checked => onfontUnderlineChanged checked
  | OnfontItalicChanged checked => onfontItalicChanged checked
  | OnAlignmentChanged alignment => onAlignmentChanged alignment
  | OnOrientationChanged => onOrientationChanged
  | OnSrokeWidthChanged => onSrokeWidthChanged
  | OnLinespacingChanged => onLinespacingChanged
  end.

(** What stands between a handler and its work: the family handler acts only
    while the family box has keyboard focus, and the handlers of the two
    number boxes need a text that reads as a number. *)
Definition ready (h : Handler) (p : FontFormatPanel) : bool :=
  match h with
  | OnfontFamilyChanged => familybox_hasFocus (familybox (controls p))
  | OnSrokeWidthChanged =>
      match currentText (strokeWidthBox (controls p)) with Some _ => true | None => false end
  | OnLinespacingChanged =>
      match currentText (lineSpacingBox (controls p)) with Some _ => true | None => false end
  | _ => true
  end.

(** The alignment handler edits the item before it signals: with an item
    selected, its argument has to index the three alignment flags. *)
Definition indexes_alignment (h : Handler) (p : FontFormatPanel) : bool :=
  match h, textblk_item p with
  | OnAlignmentChanged alignment, Some _ => (-3 <=? alignment) && (alignment <=? 2)
  | _, _ => true
  end.

(** The attribute each handler writes on the active format. *)
Definition attribute_written (h : Handler) (p : FontFormatPanel) (f : FontFormat.t)
  : FontFormat.t :=
  match h with
  | OnColorChanged _ => set_frgb (colorPicker (controls p)) f
  | OnStrokeColorChanged _ => set_srgb (strokeColorPicker (controls p)) f
  | OnApplyFontsize font_size => set_size font_size f
  | OnfontFamilyChanged => set_family (familybox_currentText (familybox (controls p))) f
  | OnfontBoldChanged checked =>
      set_bold checked (set_weight (if checked then Bold else Normal) f)
  | OnfontUnderlineChanged checked => set_underline checked f
  | OnfontItalicChanged checked => set_italic checked f
  | OnAlignmentChanged alignment => set_alignment_attr alignment f
  | OnOrientationChanged => set_vertical (verticalChecker (controls p)) f
  | OnSrokeWidthChanged =>
      match currentText (strokeWidthBox (controls p)) with
      | Some v => set_stroke_width v f
      | None => f
      end
  | OnLinespacingChanged =>
      match currentText (lineSpacingBox (controls p)) with
      | Some v => set_line_spacing v f
      | None => f
      end
  end.

(* --------------------------------------------------------------------- *)
(** ** Notions used to state what the operations do                        *)
(* --------------------------------------------------------------------- *)





(** What a click on an arrow of the font-size box emits, checked: one signal
    and no more, carrying an integer size between [lo] and [hi]. *)
Definition emits_one_integer_between (lo hi : Z) (signals : list Signal) : bool :=
  match signals with
  | [apply_fontsize x] =>
      match int_of_float x with
      | Ok m => bool_decide (x = float_of_Z m) && (lo <=? m) && (m <=? hi)
      | Raise _ => false
      end
  | _ => false
  end.

Definition emits_nothing (signals : list Signal) : bool :=
  match signals with
  | [] => true
  | _ => false
  end.

(** The checks of both arrows for the integer size [n]: the up arrow emits
    one size above [n] unless [n] is 1000, the down arrow one size below [n]
    unless [n] is 1. *)
Definition arrows_step_properly (n : Z) : bool :=
  (if n <? 1000
   then emits_one_integer_between (n + 1) 1000 (emitted (onUpBtnClicked (box_showing n 1)))
   else emits_nothing (emitted (onUpBtnClicked (box_showing n 1)))) &&
  (if 1 <? n
   then emits_one_integer_between 1 (n - 1) (emitted (onDownBtnClicked (box_showing n 1)))
   else emits_nothing (emitted (onDownBtnClicked (box_showing n 1)))).


(** The item's cursor lies inside its document. *)
Definition cursor_in_document (b : TextBlkItem) : Prop :=
  0 <= position (textCursor b) <= lastPosition (document b) /\
  0 <= anchor (textCursor b) <= lastPosition (document b).

(** [b'] is [b] after the format of every cell in the effective selection of
    [b] went through [g]: nothing else of the document changed, the cursor is
    back on the range it spanned, and the item differs in its document and
    cursor only. *)
Definition selection_formatted (g : QTextCharFormat -> QTextCharFormat)
  (b b' : TextBlkItem) : Prop :=
  let s := selectionStart (effective_cursor b) in
  let e := selectionEnd (effective_cursor b) in
  (forall (i : nat) c, cells (document b) !! i = Some c ->
     cells (document b') !! i =
     Some (if in_range s e i then map_cell_format g c else c)) /\
  length (cells (document b')) = length (cells (document b)) /\
  toPlainText (document b') = toPlainText (document b) /\
  initialBlockCharFormat (document b') = initialBlockCharFormat (document b) /\
  defaultFont (document b') = defaultFont (document b) /\
  position (textCursor b') = Z.max (position (textCursor b)) (anchor (textCursor b)) /\
  anchor (textCursor b') = Z.min (position (textCursor b)) (anchor (textCursor b)) /\
  b' = setTextCursor (textCursor b') (with_document (document b') b).

(** Two items with the same document and the same cursor range. *)
Definition same_document_and_range (b1 b2 : TextBlkItem) : Prop :=
  document b1 = document b2 /\
  position (textCursor b1) = position (textCursor b2) /\
  anchor (textCursor b1) = anchor (textCursor b2).

(** The flag [[AlignLeft, AlignCenter, AlignRight][alignment]] stands for
    when the index is in range. *)
Definition flag_at (alignment : Z) : AlignmentFlag :=
  match alignment mod 3 with
  | 0 => AlignLeft
  | 1 => AlignCenter
  | _ => AlignRight
  end.

(** The handlers whose value comes from a control of the panel (the others
    get it from their signal). *)
Definition reads_controls (h : Handler) : bool :=
  match h with
  | OnColorChanged _ | OnStrokeColorChanged _ | OnfontFamilyChanged
  | OnOrientationChanged | OnSrokeWidthChanged | OnLinespacingChanged => true
  | _ => false
  end.

(** The alignment code of a checker. *)
Definition alignment_code (b : AlignBtn) : Z :=
  match b with LeftBtn => 0 | CenterBtn => 1 | RightBtn => 2 end.

(* ===================================================================== *)
(** * Sample objects                                                       *)
(* ===================================================================== *)

Module Sample.

Definition font : QFont :=
  mkQFont "Sans" (float_of_Z 9) Normal false false 0 false 0.

(** A toy export and import: the text alone, one byte per character. *)
Definition export (cs : list Cell) : string :=
  String.string_of_list_ascii ((fun c => Ascii.ascii_of_N (Z.to_N (cell_char c))) <$> cs).

Definition import (s : string) : list Cell :=
  (fun a => let n := Z.of_N (Ascii.N_of_ascii a) in
            if n =? 10 then Sep QTextCharFormat_new else Chr n QTextCharFormat_new)
    <$> String.list_ascii_of_string s.

Definition toolkit : Toolkit :=
  {| application_font := font; toHtml := export; fromHtml := import |}.

Definition setStrokeWidth (w : float) (b : TextBlkItem) : TextBlkItem :=
  mkTextBlkItem w (textCursor b) (document b) (idx b) (item_alignment b)
                (item_stroke_color b) (item_line_spacing b) (item_vertical b)
                (background_repaints b).

Definition setAlignment (a : AlignmentFlag) (b : TextBlkItem) : TextBlkItem :=
  mkTextBlkItem (stroke_width b) (textCursor b) (document b) (idx b) a
                (item_stroke_color b) (item_line_spacing b) (item_vertical b)
                (background_repaints b).

Definition setStrokeColor (c : list Z) (b : TextBlkItem) : TextBlkItem :=
  mkTextBlkItem (stroke_width b) (textCursor b) (document b) (idx b) (item_alignment b)
                c (item_line_spacing b) (item_vertical b) (background_repaints b).

Definition setLineSpacing (s : float) (b : TextBlkItem) : TextBlkItem :=
  mkTextBlkItem (stroke_width b) (textCursor b) (document b) (idx b) (item_alignment b)
                (item_stroke_color b) s (item_vertical b) (background_repaints b).

Definition setVertical (v : bool) (b : TextBlkItem) : TextBlkItem :=
  mkTextBlkItem (stroke_width b) (textCursor b) (document b) (idx b) (item_alignment b)
                (item_stroke_color b) (item_line_spacing b) v (background_repaints b).

Definition repaint_background (b : TextBlkItem) : TextBlkItem :=
  mkTextBlkItem (stroke_width b) (textCursor b) (document b) (idx b) (item_alignment b)
                (item_stroke_color b) (item_line_spacing b) (item_vertical b)
                (S (background_repaints b)).

Definition get_fontformat (b : TextBlkItem) : FontFormat.t :=
  FontFormat.mk "Sans" (float_of_Z 24) (stroke_width b) [0; 0; 0] (item_stroke_color b)
                false false false
                (match item_alignment b with AlignLeft => 0 | AlignCenter => 1 | AlignRight => 2 end)
                (item_vertical b) Normal (item_line_spacing b).

Definition repository : Repository :=
  {| set_html_color := fun html _ => html;
     TextBlkItem_setAlignment := setAlignment;
     TextBlkItem_setStrokeWidth := setStrokeWidth;
     TextBlkItem_setStrokeColor := setStrokeColor;
     TextBlkItem_setLineSpacing := setLineSpacing;
     TextBlkItem_setVertical := setVertical;
     TextBlkItem_repaint_background := repaint_background;
     TextBlkItem_get_fontformat := get_fontformat |}.

(** A character format with every font property set; the weight is [w]. *)
Definition format (w : Z) : QTextCharFormat :=
  mkCharFormat (Some "Sans") (Some (float_of_Z 12)) (Some w) (Some false) (Some false)
               (Some (float_of_Z 0)) (Some 0) (Some (float_of_Z 0)) None.

(** The document showing the characters [text], all in format [f]. *)
Definition doc (text : list Z) (f : QTextCharFormat) : QTextDocument :=
  mkDocument f ((fun c => Chr c f) <$> text) font.

(** An item on document [d] whose cursor is at [pos] with its anchor at [anc]. *)
Definition item (d : QTextDocument) (pos anc : Z) : TextBlkItem :=
  mkTextBlkItem (float_of_Z 0) (mkCursor pos anc None) d 7 AlignLeft [0; 0; 0]
                (float_of_scaled 12 (-3)) false 0.

(** "abcd" in plain weight. *)
Definition abcd : QTextDocument := doc [97; 98; 99; 100] (format Normal).

(** "ab" in demi-bold (weight 63). *)
Definition DemiBold : Z := 63.
Definition ab_demibold : QTextDocument := doc [97; 98] (format DemiBold).


Definition global_fmt : FontFormat.t :=
  FontFormat.mk "Sans" (float_of_Z 24) (float_of_Z 0) [0; 0; 0] [0; 0; 0]
                false false false 0 false Normal (float_of_scaled 12 (-3)).

Definition some_controls : Controls :=
  mkControls (mkFontComboBox "Arial" false)
             (mkFontSizeBox (mkSizeComboBox (Some (float_of_Z 24)) false false))
             (mkSizeComboBox (Some (float_of_scaled 12 (-3))) false false)
             [255; 0; 0]
             (mkGroup (mkChecker true false) (mkChecker false false) (mkChecker false false))
             (mkFormatGroupBtn false false false)
             false
             [0; 0; 0]
             (mkSizeComboBox (Some (float_of_Z 0)) false false).

(** The panel as it stands with no block selected: widget 0 is the panel,
    widget 1 a control in it, widget 5 something elsewhere that has focus. *)
Definition panel : FontFormatPanel :=
  mkPanel 0%nat (mkApplication (Some 5%nat) {[ 1%nat := 0%nat; 5%nat := 4%nat ]})
          [global_fmt] None (Some 0%nat) (Some 0%nat) false false some_controls
          "Global Font Format" "Global Font Format".

End Sample.

(* ===================================================================== *)
(** * Properties                                                           *)
(* ===================================================================== *)

(** ** The cursor *)


Lemma setPosition_valid pos m d c :
  0 <= pos <= lastPosition d ->
  position (setPosition pos m d c) = pos /\
  anchor (setPosition pos m d c) = match m with MoveAnchor => pos | KeepAnchor => anchor c end.
Proof.
  intros [Hlo Hhi]. unfold setPosition.
  destruct (pos <? 0) eqn:E1; [apply Z.ltb_lt in E1; lia|].
  destruct (lastPosition d <? pos) eqn:E2; [apply Z.ltb_lt in E2; lia|].
  simpl. done.
Qed.

Lemma select_Document_spec d c :
  anchor (select_Document d c) = 0 /\ position (select_Document d c) = lastPosition d.
Proof. done. Qed.


Lemma hasSelection_false c : hasSelection c = false -> position c = anchor c.
Proof. unfold hasSelection. intros E. apply negb_false_iff, Z.eqb_eq in E. done. Qed.

Lemma restored_cursor_spec set_all pos1 pos2 doc cursor :
  (set_all = true -> pos1 = pos2) ->
  0 <= Z.min pos1 pos2 -> Z.max pos1 pos2 <= lastPosition doc ->
  position (restored_cursor set_all pos1 pos2 doc cursor) = Z.max pos1 pos2 /\
  anchor (restored_cursor set_all pos1 pos2 doc cursor) = Z.min pos1 pos2.
Proof.
  intros Hall Hlo Hhi. unfold restored_cursor. destruct set_all; simpl.
  - specialize (Hall eq_refl). subst pos2.
    rewrite Z.min_id in Hlo. rewrite Z.max_id in Hhi |- *. rewrite Z.min_id.
    apply (setPosition_valid pos1 MoveAnchor). lia.
  - destruct (setPosition_valid (Z.min pos1 pos2) MoveAnchor doc cursor) as [_ Ha]; [lia|].
    destruct (setPosition_valid (Z.max pos1 pos2) KeepAnchor doc
                (setPosition (Z.min pos1 pos2) MoveAnchor doc cursor)) as [Hp Ha']; [lia|].
    rewrite Hp, Ha', Ha. done.
Qed.



(** C2, as stated, fails: a selection made backwards (position 1, anchor 3)
    comes back with position 3 and anchor 1. *)
Lemma cursor_not_restored_backward_selection :
  @set_textblk_weight Sample.repository (Some (Sample.item Sample.abcd 1 3)) Bold =
    Ok (Some (Sample.item
                (mkDocument (Sample.format Normal)
                            (format_range (merge (setFontWeight Bold QTextCharFormat_new)) 1 3
                                          (cells Sample.abcd))
                            Sample.font)
                3 1)) /\
  position (textCursor (Sample.item Sample.abcd 1 3)) = 1 /\
  anchor (textCursor (Sample.item Sample.abcd 1 3)) = 3.
Proof. repeat split. Qed.

(** C2, amended.  Let the wrapped function return normally and leave the
    positions the cursor had inside the document.  Then the cursor set back
    on the item has its anchor at the smaller and its position at the larger
    of the position and anchor the item's cursor had: nothing selected stays
    nothing selected at the same position, a forward selection is restored
    exactly, and a backward one comes back as the same range with position
    and anchor exchanged. *)
Theorem restore_textcursor_puts_selection_back `{Repository}
  (formatting_func : Formatting) (blkitem blkitem' : TextBlkItem) (cursor' : QTextCursor) :
  let pos1 := position (textCursor blkitem) in
  let pos2 := anchor (textCursor blkitem) in
  formatting_func blkitem (effective_cursor blkitem) = Ok (blkitem', cursor') ->
  0 <= Z.min pos1 pos2 ->
  Z.max pos1 pos2 <= lastPosition (document blkitem') ->
  exists cursor : QTextCursor,
    restore_textcursor formatting_func (Some blkitem) =
      Ok (Some (repaint_if_changed (stroke_width blkitem) (setTextCursor cursor blkitem'))) /\
    position cursor = Z.max pos1 pos2 /\
    anchor cursor = Z.min pos1 pos2 /\
    (hasSelection (textCursor blkitem) = false ->
       position cursor = pos1 /\ hasSelection cursor = false) /\
    (pos2 <= pos1 -> position cursor = pos1 /\ anchor cursor = pos2).
Proof.
  intros pos1 pos2 Hf Hlo Hhi.
  exists (restored_cursor (negb (hasSelection (textCursor blkitem))) pos1 pos2
            (document blkitem') cursor').
  assert (Hall : negb (hasSelection (textCursor blkitem)) = true -> pos1 = pos2).
  { intros E. apply negb_true_iff in E. apply hasSelection_false in E. done. }
  destruct (restored_cursor_spec _ pos1 pos2 (document blkitem') cursor' Hall Hlo Hhi)
    as [Hp Ha].
  split; [|split; [exact Hp|split; [exact Ha|split]]].
  - unfold restore_textcursor.
    change (textCursor blkitem) with (textCursor blkitem) in *.
    replace (if negb (hasSelection (textCursor blkitem))
             then select_Document (document blkitem) (textCursor blkitem)
             else textCursor blkitem) with (effective_cursor blkitem)
      by (unfold effective_cursor; destruct (hasSelection (textCursor blkitem)); reflexivity).
    rewrite Hf. reflexivity.
  - intros E. pose proof (hasSelection_false _ E) as Heq. fold pos1 pos2 in Heq.
    set (cur := restored_cursor _ _ _ _ _) in *.
    unfold hasSelection. rewrite Hp, Ha, <- Heq, Z.max_id, Z.min_id.
    split; [done|]. rewrite Z.eqb_refl. done.
  - intros Hle. rewrite Hp, Ha. lia.
Qed.

(** On "abcd" with position 1 and anchor 3, for [set_textblk_weight]. *)
Lemma restore_textcursor_puts_selection_back_witness :
  exists cursor : QTextCursor,
    @restore_textcursor Sample.repository
       (merge_func (setFontWeight Bold QTextCharFormat_new))
       (Some (Sample.item Sample.abcd 1 3)) =
      Ok (Some (@repaint_if_changed Sample.repository (float_of_Z 0)
                  (setTextCursor cursor
                     (with_document
                        (mkDocument (Sample.format Normal)
                           (format_range (merge (setFontWeight Bold QTextCharFormat_new)) 1 3
                                         (cells Sample.abcd))
                           Sample.font)
                        (Sample.item Sample.abcd 1 3))))) /\
    position cursor = 3 /\
    anchor cursor = 1 /\
    (true = false -> position cursor = 1 /\ hasSelection cursor = false) /\
    (3 <= 1 -> position cursor = 1 /\ anchor cursor = 3).
Proof.
  refine (@restore_textcursor_puts_selection_back Sample.repository
            (merge_func (setFontWeight Bold QTextCharFormat_new))
            (Sample.item Sample.abcd 1 3) _ (mkCursor 1 3 None) _ _ _).
  - reflexivity.
  - simpl. lia.
  - vm_compute. discriminate.
Defined.

(** C8.  With [None] for the item, [wrapper] returns at once: it does not
    raise and does not call the wrapped function, whatever that function
    would do, so nothing is changed.  This holds for each of the ten
    decorated operations, whatever their argument. *)
Theorem set_textblk_None `{Toolkit} `{Repository} :
  (forall formatting_func : Formatting, restore_textcursor formatting_func None = Ok None) /\
  (forall rgb, set_textblk_color None rgb = Ok None) /\
  (forall fontsize, set_textblk_fontsize None fontsize = Ok None) /\
  (forall weight, set_textblk_weight None weight = Ok None) /\
  (forall italic, set_textblk_italic None italic = Ok None) /\
  (forall underline, set_textblk_underline None underline = Ok None) /\
  (forall alignment, set_textblk_alignment None alignment = Ok None) /\
  (forall stroke_width, set_textblk_strokewidth None stroke_width = Ok None) /\
  (forall stroke_color, set_textblk_strokecolor None stroke_color = Ok None) /\
  (forall family, set_textblk_family None family = Ok None) /\
  (forall line_spacing, set_textblk_linespacing None line_spacing = Ok None).
Proof. repeat split. Qed.

(** ** The alignment buttons *)

Lemma checked_alignments_setCheckers l c r g :
  checked_alignments (setCheckers l c r g) =
  (if l then [0] else []) ++ (if c then [1] else []) ++ (if r then [2] else []).
Proof. reflexivity. Qed.

(** C10.  After [alignBtnPressed], whoever the sender, and after
    [setAlignment], whatever the integer, exactly one checker is checked; the
    integer [alignBtnPressed] emits is the code of that checker (0 left,
    1 centre, 2 right), and [setAlignment] checks the checker its argument
    encodes (any integer other than 0 and 1 checks the right one).  A mouse
    press on a checked checker is accepted and leaves it as it is, and a
    click on it (press, then release) leaves the whole group as it is and
    emits nothing. *)
Theorem alignment_mutual_exclusion :
  (forall (btn : option AlignBtn) (g : AlignmentBtnGroup),
     exists n : Z,
       emitted (alignBtnPressed btn g) = [set_alignment n] /\
       returned (alignBtnPressed btn g) = Ok tt /\
       checked_alignments (final (alignBtnPressed btn g)) = [n] /\
       n = match btn with Some LeftBtn => 0 | Some RightBtn => 2 | _ => 1 end) /\
  (forall (alignment : Z) (g : AlignmentBtnGroup),
     checked_alignments (setAlignment alignment g) =
       [if alignment =? 0 then 0 else if alignment =? 1 then 1 else 2] /\
     (0 <= alignment <= 2 -> checked_alignments (setAlignment alignment g) = [alignment])) /\
  (forall c : AlignmentChecker,
     isChecked c = true -> mousePressEvent c = (c, true)) /\
  (forall (b : AlignBtn) (g : AlignmentBtnGroup),
     isChecked (checker b g) = true ->
     isDown (checker b g) = false ->
     click b g = mkOutcome g [] (Ok tt)).
Proof.
  split; [|split; [|split]].
  - intros btn g. destruct btn as [[]|]; eexists; repeat split.
  - intros a g. unfold setAlignment. split.
    + destruct (a =? 0); [|destruct (a =? 1)]; apply checked_alignments_setCheckers.
    + intros Ha.
      destruct (a =? 0) eqn:E0; [apply Z.eqb_eq in E0; subst; reflexivity|].
      destruct (a =? 1) eqn:E1; [apply Z.eqb_eq in E1; subst; reflexivity|].
      apply Z.eqb_neq in E0, E1. assert (a = 2) by lia. subst. reflexivity.
  - intros c Hc. unfold mousePressEvent. rewrite Hc. reflexivity.
  - intros b g Hc Hd. unfold click, mbind, method_bind, get. simpl.
    unfold mousePressEvent. rewrite Hc. unfold QCheckBox_mouseReleaseEvent. rewrite Hd.
    simpl. destruct b, g; reflexivity.
Qed.

(** With the left checker checked: [setAlignment 2], and a click on the left
    checker. *)
Lemma alignment_mutual_exclusion_witness :
  checked_alignments
    (setAlignment 2 (mkGroup (mkChecker true false) (mkChecker false false)
                             (mkChecker false false))) = [2] /\
  click LeftBtn (mkGroup (mkChecker true false) (mkChecker false false)
                         (mkChecker false false)) =
    mkOutcome (mkGroup (mkChecker true false) (mkChecker false false)
                       (mkChecker false false)) [] (Ok tt).
Proof.
  split.
  - apply (proj2 (proj1 (proj2 alignment_mutual_exclusion) 2 _)). lia.
  - apply (proj2 (proj2 (proj2 alignment_mutual_exclusion))); reflexivity.
Defined.

(** ** The font-size buttons *)

(** C9 fails on the code for the up button.  With 1.1 in the box,
    [onUpBtnClicked] rounds 1.375 down to 1, finds it different from 1.1 and
    emits it: the size emitted is below the current one. *)
Theorem onUpBtnClicked_emits_smaller_size :
  emitted (onUpBtnClicked (box_showing 11 10)) = [apply_fontsize (float_of_Z 1)] /\
  returned (onUpBtnClicked (box_showing 11 10)) = Ok tt /\
  fltb (float_of_Z 1) (float_of_ratio 11 10) = true /\
  fleb (float_of_Z 1) (float_of_ratio 11 10) = true /\
  fleb (float_of_ratio 11 10) (float_of_Z 1000) = true.
Proof. repeat split; vm_compute; reflexivity. Qed.

(** ** Formats over a range of the document *)

Lemma merge_setFontPointSize s f :
  merge (setFontPointSize s QTextCharFormat_new) f = setFontPointSize s f.
Proof. destruct f; reflexivity. Qed.

Lemma format_range_lookup g pos1 pos2 cs i :
  format_range g pos1 pos2 cs !! i =
  (fun c => if in_range pos1 pos2 i then map_cell_format g c else c) <$> cs !! i.
Proof. unfold format_range. apply list_lookup_imap. Qed.

Lemma format_range_length g pos1 pos2 cs :
  length (format_range g pos1 pos2 cs) = length cs.
Proof. unfold format_range. apply length_imap. Qed.

Lemma format_range_empty g pos1 pos2 cs :
  pos2 <= pos1 -> format_range g pos1 pos2 cs = cs.
Proof.
  intros Hle. apply list_eq. intros i. rewrite format_range_lookup.
  destruct (cs !! i) as [c|]; simpl; [|done].
  unfold in_range.
  destruct (pos1 <=? Z.of_nat i) eqn:E1; [|done].
  destruct (Z.of_nat i <? pos2) eqn:E2; [|done].
  apply Z.leb_le in E1. apply Z.ltb_lt in E2. lia.
Qed.

(** A map over the cells that keeps separators separators and characters
    characters leaves the blocks where they are. *)
Lemma block_position_from_imap (f : nat -> Cell -> Cell) cs :
  (forall i c, same_kind c (f i c)) ->
  forall start i pos,
    block_position_from start i (imap f cs) pos = block_position_from start i cs pos.
Proof.
  revert f. induction cs as [|c cs IH]; intros f Hf start i pos; [done|].
  simpl. destruct (pos <=? i); [done|].
  specialize (Hf 0%nat c) as Hk.
  destruct c, (f 0%nat _); simpl in Hk; try done;
    apply IH; intros j c'; apply Hf.
Qed.

Lemma block_position_format_range g pos1 pos2 cs pos :
  block_position (format_range g pos1 pos2 cs) pos = block_position cs pos.
Proof.
  unfold block_position, format_range. apply block_position_from_imap.
  intros i c. destruct (in_range pos1 pos2 i), c; done.
Qed.

Lemma block_position_from_le start i cs pos :
  start <= i -> block_position_from start i cs pos <= Z.max start pos.
Proof.
  revert start i. induction cs as [|c cs IH]; intros start i Hsi; simpl; [lia|].
  destruct (pos <=? i) eqn:E; [lia|]. apply Z.leb_gt in E.
  destruct c.
  - specialize (IH start (i + 1)). lia.
  - specialize (IH (i + 1) (i + 1)). lia.
Qed.

Lemma block_position_from_mono start i cs pos :
  start <= i -> start <= block_position_from start i cs pos.
Proof.
  revert start i. induction cs as [|c cs IH]; intros start i Hsi; simpl; [lia|].
  destruct (pos <=? i); [lia|].
  destruct c.
  - apply IH. lia.
  - specialize (IH (i + 1) (i + 1)). lia.
Qed.

Lemma block_position_from_after_sep start i cs pos (j : nat) f :
  start <= i ->
  cs !! j = Some (Sep f) ->
  i + Z.of_nat j < pos ->
  i + Z.of_nat j + 1 <= block_position_from start i cs pos.
Proof.
  revert start i j. induction cs as [|c cs IH]; intros start i j Hsi Hj Hlt; [done|].
  simpl. destruct (pos <=? i) eqn:E; [apply Z.leb_le in E; lia|].
  destruct j as [|j]; simpl in Hj.
  - injection Hj as ->.
    pose proof (block_position_from_mono (i + 1) (i + 1) cs pos). lia.
  - destruct c.
    + specialize (IH start (i + 1) j ltac:(lia) Hj ltac:(lia)). lia.
    + specialize (IH (i + 1) (i + 1) j ltac:(lia) Hj ltac:(lia)). lia.
Qed.

(** A separator inside the selection closes a block the selection touches. *)
Lemma sep_in_range_block cs pos1 pos2 (i : nat) f :
  cs !! i = Some (Sep f) ->
  in_range pos1 pos2 i = true ->
  (block_position cs pos1 <=? Z.of_nat i + 1) && (Z.of_nat i + 1 <=? block_position cs pos2)
  = true.
Proof.
  intros Hi Hr. unfold in_range in Hr. apply andb_true_iff in Hr as [H1 H2].
  apply Z.leb_le in H1. apply Z.ltb_lt in H2.
  apply andb_true_iff. split; apply Z.leb_le.
  - pose proof (block_position_from_le 0 0 cs pos1). unfold block_position. lia.
  - pose proof (block_position_from_after_sep 0 0 cs pos2 i f ltac:(lia) Hi ltac:(lia)).
    unfold block_position. lia.
Qed.

Lemma document_eta d :
  mkDocument (initialBlockCharFormat d) (cells d) (defaultFont d) = d.
Proof. destruct d; reflexivity. Qed.

Lemma feqb_refl_not_nan x : feqb x x = true -> negb (feqb x x) = false.
Proof. intros ->. done. Qed.

(** C3, as stated, fails for a size that is not above zero: on "abcd" with
    nothing selected the effective selection is the whole document, and
    [set_textblk_fontsize] with size 0 writes 0 into every character format
    while the default font keeps its 9 points, because [QFont.setPointSizeF]
    refuses such a size. *)
Lemma fontsize_zero_keeps_default_font :
  selectionStart (effective_cursor (Sample.item Sample.abcd 2 2)) = 0 /\
  selectionEnd (effective_cursor (Sample.item Sample.abcd 2 2)) = lastPosition Sample.abcd /\
  exists blkitem' : TextBlkItem,
    @set_textblk_fontsize Sample.repository (Some (Sample.item Sample.abcd 2 2))
                          (float_of_Z 0) = Ok (Some blkitem') /\
    FontPointSize <$> (cell_format <$> cells (document blkitem')) =
      replicate 4 (Some (float_of_Z 0)) /\
    font_pointSizeF (defaultFont (document blkitem')) = float_of_Z 9 /\
    float_of_Z 9 ≠ float_of_Z 0.
Proof.
  split; [reflexivity|]. split; [reflexivity|].
  eexists. split; [vm_compute; reflexivity|].
  split; [reflexivity|]. split; [reflexivity|]. vm_compute. discriminate.
Qed.

(** C3, amended.  For an item whose stroke width is a number,
    [set_textblk_fontsize] returns normally, and with [s] and [e] the start
    and the end of the effective selection:
    - every character at a position in [s, e) has the point size set in its
      character format, its other properties as before, and every other
      character keeps its format;
    - every block from the one holding [s] to the one holding [e] has the
      point size set in its block character format, and every other block
      keeps its own;
    - the default font of the document has its point size set, and nothing
      else changed, when [s = 0], [e] is the last position and the size is
      above zero; it is the font it was otherwise. *)
Theorem set_textblk_fontsize_spec `{Toolkit} `{Repository}
  (blkitem : TextBlkItem) (fontsize : float) :
  let d := document blkitem in
  let s := selectionStart (effective_cursor blkitem) in
  let e := selectionEnd (effective_cursor blkitem) in
  let touched (start : Z) :=
    (block_position (cells d) s <=? start) && (start <=? block_position (cells d) e) in
  feqb (stroke_width blkitem) (stroke_width blkitem) = true ->
  exists blkitem' : TextBlkItem,
    set_textblk_fontsize (Some blkitem) fontsize = Ok (Some blkitem') /\
    let d' := document blkitem' in
    length (cells d') = length (cells d) /\
    (forall (i : nat) c f, cells d !! i = Some (Chr c f) ->
       cells d' !! i =
       Some (Chr c (if in_range s e i then setFontPointSize fontsize f else f))) /\
    (forall (i : nat) f, cells d !! i = Some (Sep f) ->
       cells d' !! i =
       Some (Sep (if touched (Z.of_nat i + 1) then setFontPointSize fontsize f else f))) /\
    initialBlockCharFormat d' =
      (if touched 0 then setFontPointSize fontsize (initialBlockCharFormat d)
       else initialBlockCharFormat d) /\
    defaultFont d' =
      (if (s =? 0) && (e =? lastPosition d) && negb (fleb fontsize (float_of_Z 0))
       then mkQFont (font_family (defaultFont d)) fontsize (font_weight (defaultFont d))
                    (font_italic (defaultFont d)) (font_underline (defaultFont d))
                    (font_wordSpacing (defaultFont d))
                    (font_letterSpacingIsAbsolute (defaultFont d))
                    (font_letterSpacing (defaultFont d))
       else defaultFont d).
Proof.
  intros d s e touched Hnan.
  set (c := effective_cursor blkitem) in *.
  set (m := setFontPointSize fontsize QTextCharFormat_new).
  (* the document after [mergeCharFormat]: the same range map in both cases *)
  assert (Hmerge : exists c1,
             mergeCharFormat m d c =
             (mkDocument (initialBlockCharFormat d) (format_range (merge m) s e (cells d))
                         (defaultFont d), c1) /\
             selectionStart c1 = s /\ selectionEnd c1 = e).
  { unfold mergeCharFormat. destruct (hasSelection c) eqn:E.
    - exists c. done.
    - exists (mkCursor (position c) (anchor c) (Some (merge m (charFormat d c)))).
      split; [|split; reflexivity].
      rewrite format_range_empty.
      + rewrite document_eta. reflexivity.
      + apply hasSelection_false in E. subst s e. unfold selectionStart, selectionEnd. lia. }
  destruct Hmerge as (c1 & Hm & Hs1 & He1).
  eexists. split.
  - unfold set_textblk_fontsize, restore_textcursor.
    replace (if negb (hasSelection (textCursor blkitem))
             then select_Document (document blkitem) (textCursor blkitem)
             else textCursor blkitem) with c
      by (subst c; unfold effective_cursor;
          destruct (hasSelection (textCursor blkitem)); reflexivity).
    unfold fontsize_func. fold d m. rewrite Hm. simpl.
    unfold put_back, repaint_if_changed. simpl.
    rewrite (feqb_refl_not_nan _ Hnan). reflexivity.
  - simpl. rewrite Hs1, He1. clear Hm. subst m.
    set (doc1 := mkDocument _ (format_range _ s e (cells d)) _).
    assert (Hlast : lastPosition doc1 = lastPosition d).
    { unfold lastPosition, doc1. simpl. rewrite format_range_length. done. }
    rewrite Hlast. subst doc1. unfold setPointSizeF.
    change (float_of_Z 0) with (S754_zero false).
    destruct ((s =? 0) && (e =? lastPosition d));
      destruct (fleb fontsize (S754_zero false)); simpl;
      rewrite !block_position_format_range; fold (touched 0).
    all: split; [rewrite length_imap, format_range_length; done|].
    all: split;
      [intros i x f Hi; rewrite list_lookup_imap, format_range_lookup, Hi; simpl;
       destruct (in_range s e i); simpl; rewrite ?merge_setFontPointSize; done|].
    all: split;
      [intros i f Hi; rewrite list_lookup_imap, format_range_lookup, Hi; simpl;
       fold (touched (Z.of_nat i + 1));
       destruct (in_range s e i) eqn:Er; simpl;
       [pose proof (sep_in_range_block (cells d) s e i f Hi Er) as Ht;
        fold (touched (Z.of_nat i + 1)) in Ht; rewrite Ht;
        rewrite !merge_setFontPointSize; done
       |destruct (touched (Z.of_nat i + 1)); rewrite ?merge_setFontPointSize; done]|].
    all: split; [|done].
    all: destruct (touched 0); rewrite ?merge_setFontPointSize; done.
Qed.

(** On "abcd" with nothing selected, size 20: the characters and the default
    font take the size. *)
Lemma set_textblk_fontsize_spec_witness :
  feqb (stroke_width (Sample.item Sample.abcd 2 2))
       (stroke_width (Sample.item Sample.abcd 2 2)) = true /\
  exists blkitem' : TextBlkItem,
    @set_textblk_fontsize Sample.repository (Some (Sample.item Sample.abcd 2 2))
                          (float_of_Z 20) = Ok (Some blkitem') /\
    cells (document blkitem') !! 1%nat =
      Some (Chr 98 (setFontPointSize (float_of_Z 20) (Sample.format Normal))) /\
    defaultFont (document blkitem') =
      mkQFont "Sans" (float_of_Z 20) Normal false false 0 false 0.
Proof.
  split; [reflexivity|].
  destruct (@set_textblk_fontsize_spec Sample.toolkit Sample.repository
              (Sample.item Sample.abcd 2 2) (float_of_Z 20) eq_refl)
    as (b' & Hb & _ & Hc & _ & _ & Hd).
  exists b'. split; [exact Hb|]. split; [|exact Hd].
  exact (Hc 1%nat 98 (Sample.format Normal) eq_refl).
Defined.

(** ** The colour of a block *)




Lemma restore_textcursor_unfold `{Repository} (f : Formatting) blkitem :
  restore_textcursor f (Some blkitem) =
  '(blkitem', cursor') ← f blkitem (effective_cursor blkitem);
  Ok (Some (put_back (stroke_width blkitem) (negb (hasSelection (textCursor blkitem)))
                     (position (textCursor blkitem)) (anchor (textCursor blkitem))
                     blkitem' cursor')).
Proof.
  unfold restore_textcursor, effective_cursor.
  destruct (hasSelection (textCursor blkitem)); reflexivity.
Qed.


(** ** The handlers of the panel *)

Lemma bind_run {S A B} (m : Method S A) (k : A -> Method S B) (s : S) :
  (m ≫= k) s =
  match returned (m s) with
  | Ok a =>
      mkOutcome (final (k a (final (m s)))) (emitted (m s) ++ emitted (k a (final (m s))))
                (returned (k a (final (m s))))
  | Raise e => mkOutcome (final (m s)) (emitted (m s)) (Raise e)
  end.
Proof. reflexivity. Qed.

Lemma get_run {S} (s : S) : get s = mkOutcome s [] (Ok s).
Proof. reflexivity. Qed.

Lemma modify_run {S} (f : S -> S) (s : S) : modify f s = mkOutcome (f s) [] (Ok tt).
Proof. reflexivity. Qed.

Lemma assign_run p a f g :
  formats p !! a = Some f ->
  assign (Some a) g p = mkOutcome (with_formats (<[a := g f]> (formats p)) p) [] (Ok tt).
Proof. intros Hf. unfold assign. rewrite Hf. reflexivity. Qed.

Lemma deref_run p a f :
  formats p !! a = Some f -> deref (Some a) p = mkOutcome p [] (Ok f).
Proof. intros Hf. unfold deref. simpl. rewrite Hf. reflexivity. Qed.

Lemma lookup_written (l : list FontFormat.t) a f x :
  l !! a = Some f -> <[a := x]> l !! a = Some x.
Proof. intros Hf. apply list_lookup_insert_eq. eapply lookup_lt_Some. exact Hf. Qed.

Section PanelFacts.
Context `{Toolkit} `{Repository}.

Lemma restoreTextBlkItem_run p :
  restoreTextBlkItem p =
  mkOutcome p (if decide (active_format p = global_format p)
               then [global_format_changed] else []) (Ok tt).
Proof.
  unfold restoreTextBlkItem. rewrite bind_run, get_run. cbn [final emitted returned].
  destruct (decide (active_format p = global_format p)); reflexivity.
Qed.

(** A [set_textblk_*] call touches the item only. *)
Lemma on_textblk_item_run op p :
  formats (final (on_textblk_item op p)) = formats p /\
  emitted (on_textblk_item op p) = [].
Proof. unfold on_textblk_item. destruct (op (textblk_item p)); done. Qed.

Lemma deref_then_item (op : FontFormat.t -> option TextBlkItem -> result (option TextBlkItem))
  q a f :
  formats q !! a = Some f ->
  formats (final ((deref (Some a) ≫= fun f0 => on_textblk_item (op f0)) q)) = formats q /\
  emitted ((deref (Some a) ≫= fun f0 => on_textblk_item (op f0)) q) = [].
Proof.
  intros Hf. rewrite bind_run, (deref_run _ _ _ Hf). cbn [final emitted returned].
  apply on_textblk_item_run.
Qed.

(** The common shape of a handler: write the attribute, signal, edit the
    item. *)
Lemma write_signal_edit g (op : FontFormat.t -> option TextBlkItem -> result (option TextBlkItem))
  p l a f :
  l = Some a -> formats p !! a = Some f ->
  let o := (assign l g;; restoreTextBlkItem;;
            f0 ← deref l; on_textblk_item (op f0)) p in
  formats (final o) = <[a := g f]> (formats p) /\
  emitted o = (if decide (active_format p = global_format p)
               then [global_format_changed] else []).
Proof.
  intros -> Hf o. subst o.
  rewrite bind_run, (assign_run _ _ _ _ Hf). cbn [final emitted returned].
  rewrite bind_run, restoreTextBlkItem_run. cbn [final emitted returned].
  destruct (deref_then_item op (with_formats (<[a := g f]> (formats p)) p) a (g f))
    as [E1 E2]; [apply (lookup_written _ _ f), Hf|].
  rewrite E1, E2, app_nil_r. done.
Qed.

Lemma colour_handler_run g (op : FontFormat.t -> option TextBlkItem -> result (option TextBlkItem))
  (is_valid : bool) p l a f :
  l = Some a -> formats p !! a = Some f ->
  let o := (assign l g;; modify (with_focusOnColorDialog false);;
            restoreTextBlkItem;;
            if is_valid then f0 ← deref l; on_textblk_item (op f0) else mret tt) p in
  formats (final o) = <[a := g f]> (formats p) /\
  emitted o = (if decide (active_format p = global_format p)
               then [global_format_changed] else []).
Proof.
  intros -> Hf o. subst o.
  rewrite bind_run, (assign_run _ _ _ _ Hf). cbn [final emitted returned].
  rewrite bind_run, modify_run. cbn [final emitted returned].
  rewrite bind_run, restoreTextBlkItem_run. cbn [final emitted returned].
  destruct is_valid.
  - destruct (deref_then_item op
                (with_focusOnColorDialog false (with_formats (<[a := g f]> (formats p)) p))
                a (g f)) as [E1 E2]; [apply (lookup_written _ _ f), Hf|].
    rewrite E1, E2, app_nil_r. done.
  - cbn. rewrite app_nil_r. done.
Qed.

Lemma set_textblk_alignment_returns (b : option TextBlkItem) (alignment : Z) :
  match b with Some _ => (-3 <=? alignment) && (alignment <=? 2) | None => true end = true ->
  exists b', set_textblk_alignment b alignment = Ok b'.
Proof.
  destruct b as [b|]; [|eexists; reflexivity].
  intros Hr. apply andb_true_iff in Hr as [Hlo Hhi].
  apply Z.leb_le in Hlo, Hhi.
  unfold set_textblk_alignment. rewrite restore_textcursor_unfold. unfold alignment_func.
  assert (Hcase : alignment = -3 \/ alignment = -2 \/ alignment = -1 \/
                  alignment = 0 \/ alignment = 1 \/ alignment = 2) by lia.
  destruct Hcase as [->|[->|[->|[->|[->| ->]]]]]; eexists; reflexivity.
Qed.

Lemma handle_ready (h : Handler) p a f :
  active_format p = Some a -> formats p !! a = Some f ->
  ready h p = true -> indexes_alignment h p = true ->
  formats (final (handle h p)) = <[a := attribute_written h p f]> (formats p) /\
  emitted (handle h p) = (if decide (active_format p = global_format p)
                          then [global_format_changed] else []).
Proof.
  intros Ha Hf Hr Hi. destruct h; cbn [handle attribute_written].
  - unfold onColorChanged. rewrite bind_run, get_run. cbn [final emitted returned].
    rewrite app_nil_l.
    apply (colour_handler_run _ (fun f0 b => set_textblk_color b (FontFormat.frgb f0))
                              _ _ (active_format p)); assumption.
  - unfold onStrokeColorChanged. rewrite bind_run, get_run. cbn [final emitted returned].
    rewrite app_nil_l.
    apply (colour_handler_run _ (fun f0 b => set_textblk_strokecolor b (FontFormat.srgb f0))
                              _ _ (active_format p)); assumption.
  - unfold onApplyFontsize. rewrite bind_run, get_run. cbn [final emitted returned].
    rewrite app_nil_l.
    apply (write_signal_edit _ (fun f0 b => set_textblk_fontsize b (FontFormat.size f0))
                             _ (active_format p)); assumption.
  - unfold onfontFamilyChanged. rewrite bind_run, get_run. cbn [final emitted returned].
    cbn [ready] in Hr. rewrite Hr. rewrite app_nil_l.
    apply (write_signal_edit _ (fun f0 b => set_textblk_family b (FontFormat.family f0))
                             _ (active_format p)); assumption.
  - unfold onfontBoldChanged. rewrite bind_run, get_run. cbn [final emitted returned].
    rewrite app_nil_l.
    enough (Hgen : forall l, l = Some a ->
              let o := (((if checked
                          then assign l (set_weight Bold);; assign l (set_bold true)
                          else assign l (set_weight Normal);; assign l (set_bold false));;
                         restoreTextBlkItem;;
                         f0 ← deref l;
                         on_textblk_item (fun b => set_textblk_weight b (FontFormat.weight f0)))
                          p) in
              formats (final o) =
                <[a := set_bold checked (set_weight (if checked then Bold else Normal) f)]>
                  (formats p) /\
              emitted o = (if decide (active_format p = global_format p)
                           then [global_format_changed] else []))
      by (apply (Hgen (active_format p) Ha)).
    intros l -> o. subst o.
    rewrite bind_run.
    assert (Hw : (if checked
                  then assign (Some a) (set_weight Bold);; assign (Some a) (set_bold true)
                  else assign (Some a) (set_weight Normal);; assign (Some a) (set_bold false)) p
                 = mkOutcome
                     (with_formats
                        (<[a := set_bold checked
                                  (set_weight (if checked then Bold else Normal) f)]>
                           (formats p)) p) [] (Ok tt)).
    { destruct checked;
        rewrite bind_run, (assign_run _ _ _ _ Hf); cbn [final emitted returned];
        erewrite assign_run by (cbn; apply (lookup_written _ _ f), Hf);
        cbn; rewrite list_insert_insert_eq; reflexivity. }
    rewrite Hw. cbn [final emitted returned].
    rewrite bind_run, restoreTextBlkItem_run. cbn [final emitted returned].
    destruct (deref_then_item (fun f0 b => set_textblk_weight b (FontFormat.weight f0))
                (with_formats
                   (<[a := set_bold checked
                             (set_weight (if checked then Bold else Normal) f)]>
                      (formats p)) p)
                a (set_bold checked (set_weight (if checked then Bold else Normal) f)))
      as [E1 E2]; [apply (lookup_written _ _ f), Hf|].
    rewrite E1, E2, app_nil_r. done.
  - unfold onfontUnderlineChanged. rewrite bind_run, get_run. cbn [final emitted returned].
    rewrite app_nil_l.
    apply (write_signal_edit _ (fun f0 b => set_textblk_underline b (FontFormat.underline f0))
                             _ (active_format p)); assumption.
  - unfold onfontItalicChanged. rewrite bind_run, get_run. cbn [final emitted returned].
    rewrite app_nil_l.
    apply (write_signal_edit _ (fun f0 b => set_textblk_italic b (FontFormat.italic f0))
                             _ (active_format p)); assumption.
  - unfold onAlignmentChanged. rewrite bind_run, get_run. cbn [final emitted returned].
    rewrite app_nil_l.
    enough (Hgen : forall l, l = Some a ->
              let o := ((assign l (set_alignment_attr alignment);;
                         f0 ← deref l;
                         on_textblk_item
                           (fun b => set_textblk_alignment b (FontFormat.alignment f0));;
                         restoreTextBlkItem) p) in
              formats (final o) = <[a := set_alignment_attr alignment f]> (formats p) /\
              emitted o = (if decide (active_format p = global_format p)
                           then [global_format_changed] else []))
      by (apply (Hgen (active_format p) Ha)).
    intros l -> o. subst o.
    rewrite bind_run, (assign_run _ _ _ _ Hf). cbn [final emitted returned].
    rewrite bind_run, (deref_run _ _ (set_alignment_attr alignment f))
      by (cbn; apply (lookup_written _ _ f), Hf).
    cbn [final emitted returned]. rewrite bind_run.
    destruct (set_textblk_alignment_returns (textblk_item p) alignment) as [b' Hb'].
    { unfold indexes_alignment in Hi. destruct (textblk_item p); done. }
    set (q := with_formats (<[a := set_alignment_attr alignment f]> (formats p)) p).
    assert (Hon : on_textblk_item
                    (fun b => set_textblk_alignment b
                                (FontFormat.alignment (set_alignment_attr alignment f))) q
                  = mkOutcome (with_textblk_item b' q) [] (Ok tt)).
    { unfold on_textblk_item. cbn. rewrite Hb'. reflexivity. }
    rewrite Hon. cbn [final emitted returned].
    rewrite restoreTextBlkItem_run. cbn. done.
  - unfold onOrientationChanged. rewrite bind_run, get_run. cbn [final emitted returned].
    rewrite app_nil_l.
    enough (Hgen : forall l, l = Some a ->
              let o := ((assign l (set_vertical (verticalChecker (controls p)));;
                         restoreTextBlkItem;;
                         f0 ← deref l;
                         p0 ← get;
                         match textblk_item p0 with
                         | Some b =>
                             modify (with_textblk_item
                                       (Some (TextBlkItem_setVertical (FontFormat.vertical f0) b)))
                         | None => mret tt
                         end) p) in
              formats (final o) =
                <[a := set_vertical (verticalChecker (controls p)) f]> (formats p) /\
              emitted o = (if decide (active_format p = global_format p)
                           then [global_format_changed] else []))
      by (apply (Hgen (active_format p) Ha)).
    intros l -> o. subst o.
    rewrite bind_run, (assign_run _ _ _ _ Hf). cbn [final emitted returned].
    rewrite bind_run, restoreTextBlkItem_run. cbn [final emitted returned].
    rewrite bind_run, (deref_run _ _ (set_vertical (verticalChecker (controls p)) f))
      by (cbn; apply (lookup_written _ _ f), Hf).
    cbn [final emitted returned].
    rewrite bind_run, get_run. cbn [final emitted returned].
    cbn [textblk_item with_formats]. destruct (textblk_item p); cbn; rewrite ?app_nil_r; done.
  - unfold onSrokeWidthChanged. rewrite bind_run, get_run. cbn [final emitted returned].
    cbn [ready] in Hr. unfold value, lift.
    destruct (currentText (strokeWidthBox (controls p))) as [v|]; [|done].
    rewrite bind_run. cbn [final emitted returned].
    unfold update_stroke_width. rewrite bind_run, get_run. cbn [final emitted returned].
    rewrite !app_nil_l.
    apply (write_signal_edit _
             (fun f0 b => set_textblk_strokewidth b (FontFormat.stroke_width f0))
             _ (active_format p)); assumption.
  - unfold onLinespacingChanged. rewrite bind_run, get_run. cbn [final emitted returned].
    cbn [ready] in Hr. unfold value, lift.
    destruct (currentText (lineSpacingBox (controls p))) as [v|]; [|done].
    rewrite bind_run. cbn [final emitted returned].
    unfold update_line_spacing. rewrite bind_run, get_run. cbn [final emitted returned].
    rewrite !app_nil_l.
    apply (write_signal_edit _
             (fun f0 b => set_textblk_linespacing b (FontFormat.line_spacing f0))
             _ (active_format p)); assumption.
Qed.

Lemma handle_not_ready (h : Handler) p :
  ready h p = false ->
  final (handle h p) = p /\ emitted (handle h p) = [].
Proof.
  intros Hr. destruct h; try discriminate; cbn [handle]; cbn [ready] in Hr.
  - unfold onfontFamilyChanged. rewrite bind_run, get_run. cbn [final emitted returned].
    rewrite Hr. done.
  - unfold onSrokeWidthChanged. rewrite bind_run, get_run. cbn [final emitted returned].
    unfold value, lift.
    destruct (currentText (strokeWidthBox (controls p))); [done|]. rewrite bind_run. done.
  - unfold onLinespacingChanged. rewrite bind_run, get_run. cbn [final emitted returned].
    unfold value, lift.
    destruct (currentText (lineSpacingBox (controls p))); [done|]. rewrite bind_run. done.
Qed.

End PanelFacts.

(** C4, as stated, fails for the family handler: with the global format
    active and the family box without keyboard focus, [onfontFamilyChanged]
    leaves the panel as it is (the family shown in the box is not written to
    the active format) and emits nothing. *)
Lemma family_handler_idle_without_focus :
  active_format Sample.panel = global_format Sample.panel /\
  familybox_hasFocus (familybox (controls Sample.panel)) = false /\
  @handle Sample.toolkit Sample.repository OnfontFamilyChanged Sample.panel =
    mkOutcome Sample.panel [] (Ok tt) /\
  (FontFormat.family <$> formats Sample.panel !! 0%nat) = Some "Sans" /\
  familybox_currentText (familybox (controls Sample.panel)) = "Arial".
Proof. repeat split. Qed.

(** C4, amended.  Let the active format be a [FontFormat] object and, for
    the alignment handler with an item selected, let the alignment index the
    three flags.  A handler that is ready (every handler but three always is:
    the family handler is ready while the family box has keyboard focus, the
    stroke-width and line-spacing handlers while their box shows a number)
    writes its attribute on the active format and emits
    [global_format_changed] exactly when the active format is the panel's
    global format.  A handler that is not ready changes nothing and emits
    nothing. *)
Theorem handlers_write_and_signal `{Toolkit} `{Repository}
  (h : Handler) (p : FontFormatPanel) (a : loc) (f : FontFormat.t) :
  active_format p = Some a ->
  formats p !! a = Some f ->
  indexes_alignment h p = true ->
  (ready h p = true ->
     formats (final (handle h p)) = <[a := attribute_written h p f]> (formats p) /\
     formats (final (handle h p)) !! a = Some (attribute_written h p f) /\
     emitted (handle h p) =
       (if decide (active_format p = global_format p) then [global_format_changed] else []) /\
     (global_format_changed ∈ emitted (handle h p) <-> active_format p = global_format p)) /\
  (ready h p = false ->
     final (handle h p) = p /\ emitted (handle h p) = []).
Proof.
  intros Ha Hf Hi. split.
  - intros Hr. destruct (handle_ready h p a f Ha Hf Hr Hi) as [E1 E2].
    split; [exact E1|]. split; [rewrite E1; apply (lookup_written _ _ f), Hf|].
    split; [exact E2|]. rewrite E2.
    destruct (decide (active_format p = global_format p)) as [E|E].
    + split; [done|]. intros _. apply list_elem_of_singleton. done.
    + split; [|done]. intros Hin. apply elem_of_nil in Hin. done.
  - apply handle_not_ready.
Qed.

(** The size handler on the panel with no block selected. *)
Lemma handlers_write_and_signal_witness :
  (true = true ->
     formats (final (@handle Sample.toolkit Sample.repository
                       (OnApplyFontsize (float_of_Z 30)) Sample.panel)) =
       <[0%nat := set_size (float_of_Z 30) Sample.global_fmt]> (formats Sample.panel) /\
     formats (final (@handle Sample.toolkit Sample.repository
                       (OnApplyFontsize (float_of_Z 30)) Sample.panel)) !! 0%nat =
       Some (set_size (float_of_Z 30) Sample.global_fmt) /\
     emitted (@handle Sample.toolkit Sample.repository
                (OnApplyFontsize (float_of_Z 30)) Sample.panel) = [global_format_changed] /\
     (global_format_changed ∈
        emitted (@handle Sample.toolkit Sample.repository
                   (OnApplyFontsize (float_of_Z 30)) Sample.panel) <->
      active_format Sample.panel = global_format Sample.panel)) /\
  (true = false ->
     final (@handle Sample.toolkit Sample.repository
              (OnApplyFontsize (float_of_Z 30)) Sample.panel) = Sample.panel /\
     emitted (@handle Sample.toolkit Sample.repository
                (OnApplyFontsize (float_of_Z 30)) Sample.panel) = []).
Proof.
  exact (@handlers_write_and_signal Sample.toolkit Sample.repository
           (OnApplyFontsize (float_of_Z 30)) Sample.panel 0%nat Sample.global_fmt
           eq_refl eq_refl eq_refl).
Defined.

(** ** Selecting a block *)

Section Selecting.
Context `{Toolkit} `{Repository}.

Lemma set_active_format_run p l f n :
  formats p !! l = Some f ->
  int_of_float (FontFormat.size f) = Ok n ->
  set_active_format (Some l) p =
  mkOutcome (with_controls (show_format f n (controls p)) (with_active_format (Some l) p))
            [] (Ok tt).
Proof.
  intros Hf Hn. unfold set_active_format.
  rewrite bind_run, modify_run. cbn [final emitted returned].
  rewrite bind_run, (deref_run _ _ f) by exact Hf. cbn [final emitted returned].
  rewrite bind_run. unfold lift at 1 2 3. cbn [final emitted returned]. rewrite Hn.
  rewrite modify_run. reflexivity.
Qed.

Lemma focus_on_fmtoptions_iff p :
  focus_on_fmtoptions p = true <->
  focusOnColorDialog p = true \/
  exists w focus_p,
    focusWidget (app p) = Some w /\
    parentWidget (app p) !! w = Some focus_p /\
    (focus_p = self p \/ parentWidget (app p) !! focus_p = Some (self p)).
Proof.
  unfold focus_on_fmtoptions.
  destruct (focusOnColorDialog p); [split; [left|]; done|].
  destruct (focusWidget (app p)) as [w|]; simpl.
  - destruct (parentWidget (app p) !! w) as [fp|] eqn:Ew.
    + rewrite orb_true_iff, !bool_decide_eq_true. split.
      * intros Hor. right. exists w, fp. done.
      * intros [?|(w' & fp' & Hw & Hfp & Hor)]; [done|].
        injection Hw as <-. rewrite Ew in Hfp. injection Hfp as <-. done.
    + split; [done|]. intros [?|(w' & fp' & Hw & Hfp & _)]; [done|].
      injection Hw as <-. rewrite Ew in Hfp. done.
  - split; [done|]. intros [?|(w' & fp' & Hw & _)]; done.
Qed.

End Selecting.

(** C7.  Let the global format be a [FontFormat] object whose size is a
    finite number.  [set_textblk_item(None)] leaves the panel as it is when
    keyboard focus is on the format options, and otherwise switches it back
    to the global format: no item, the global format active and shown in the
    controls, the label reset to the global label.  Focus is on the format
    options exactly when a colour dialog is being used or the focused widget
    has a parent that is the panel or whose parent is the panel.
    [set_textblk_item(item)], when the panel is not restoring a block and the
    item's font format has a finite size, stores the item and makes the
    format [get_fontformat] returns for it, an object none of the earlier
    references points to, the active format; while a block is being restored
    it does nothing. *)
Theorem set_textblk_item_spec `{Toolkit} `{Repository} (p : FontFormatPanel) :
  (forall (g : loc) (f : FontFormat.t) (n : Z),
     global_format p = Some g ->
     formats p !! g = Some f ->
     int_of_float (FontFormat.size f) = Ok n ->
     (focus_on_fmtoptions p = false ->
        let o := set_textblk_item None p in
        returned o = Ok tt /\ emitted o = [] /\
        textblk_item (final o) = None /\
        active_format (final o) = global_format p /\
        fontfmtLabel (final o) = global_fontfmt_str p /\
        controls (final o) = show_format f n (controls p) /\
        formats (final o) = formats p) /\
     (focus_on_fmtoptions p = true ->
        set_textblk_item None p = mkOutcome p [] (Ok tt))) /\
  (focus_on_fmtoptions p = true <->
     focusOnColorDialog p = true \/
     exists w focus_p,
       focusWidget (app p) = Some w /\
       parentWidget (app p) !! w = Some focus_p /\
       (focus_p = self p \/ parentWidget (app p) !! focus_p = Some (self p))) /\
  (forall (item : TextBlkItem) (n : Z),
     restoring_textblk p = false ->
     int_of_float (FontFormat.size (TextBlkItem_get_fontformat item)) = Ok n ->
     let o := set_textblk_item (Some item) p in
     returned o = Ok tt /\ emitted o = [] /\
     textblk_item (final o) = Some item /\
     active_format (final o) = Some (length (formats p)) /\
     formats (final o) = formats p ++ [TextBlkItem_get_fontformat item] /\
     formats (final o) !! length (formats p) = Some (TextBlkItem_get_fontformat item) /\
     formats p !! length (formats p) = None /\
     fontfmtLabel (final o) = "TextBlock #" +:+ pretty (idx item)) /\
  (forall item : TextBlkItem,
     restoring_textblk p = true ->
     set_textblk_item (Some item) p = mkOutcome p [] (Ok tt)).
Proof.
  split; [|split; [apply focus_on_fmtoptions_iff|split]].
  - intros g f n Hg Hf Hn. split.
    + intros Hfocus o. subst o. unfold set_textblk_item.
      rewrite bind_run, get_run. cbn [final emitted returned]. rewrite Hfocus.
      cbn [negb]. rewrite bind_run, modify_run. cbn [final emitted returned].
      rewrite bind_run, Hg, (set_active_format_run _ g f n) by assumption.
      cbn [final emitted returned]. rewrite modify_run. cbn. done.
    + intros Hfocus. unfold set_textblk_item.
      rewrite bind_run, get_run. cbn [final emitted returned]. rewrite Hfocus.
      reflexivity.
  - intros item n Hrest Hn o. subst o. unfold set_textblk_item.
    rewrite bind_run, get_run. cbn [final emitted returned]. rewrite Hrest.
    cbn [negb]. rewrite bind_run, modify_run. cbn [final emitted returned].
    rewrite bind_run, modify_run. cbn [final emitted returned].
    assert (Hnew : (formats p ++ [TextBlkItem_get_fontformat item]) !! length (formats p)
                   = Some (TextBlkItem_get_fontformat item)).
    { rewrite lookup_app_r by lia. rewrite Nat.sub_diag. reflexivity. }
    rewrite bind_run,
      (set_active_format_run _ (length (formats p)) (TextBlkItem_get_fontformat item) n)
      by (cbn; assumption).
    cbn [final emitted returned]. rewrite modify_run. cbn.
    repeat split; try done. apply lookup_ge_None. lia.
  - intros item Hrest. unfold set_textblk_item.
    rewrite bind_run, get_run. cbn [final emitted returned]. rewrite Hrest.
    reflexivity.
Qed.

(** [set_textblk_item(None)] on the panel while focus is elsewhere. *)
Lemma set_textblk_item_spec_witness :
  returned (@set_textblk_item Sample.repository None Sample.panel) = Ok tt /\
  textblk_item (final (@set_textblk_item Sample.repository None Sample.panel))
    = None /\
  active_format (final (@set_textblk_item Sample.repository None Sample.panel))
    = Some 0%nat /\
  fontfmtLabel (final (@set_textblk_item Sample.repository None Sample.panel))
    = "Global Font Format".
Proof.
  destruct (proj1 (proj1 (@set_textblk_item_spec Sample.toolkit Sample.repository Sample.panel)
                     0%nat Sample.global_fmt 24 eq_refl eq_refl eq_refl) eq_refl)
    as (Hr & _ & Hi & Ha & Hl & _).
  split; [exact Hr|]. split; [exact Hi|]. split; [exact Ha|exact Hl].
Defined.


(** ** The family of a block *)

(** C5 fails on the code for the weight.  On a block showing "ab" in
    demi-bold (weight 63) with nothing selected, [set_textblk_family] sets
    the family of both characters, and their weight comes out as [Bold]: line
    126 passes the weight the new font was just given through
    [setBold(bold())], which knows two weights only. *)
Theorem set_textblk_family_changes_weight :
  FontWeight <$> (cell_format <$> cells Sample.ab_demibold) = [Some 63; Some 63] /\
  exists blkitem' : TextBlkItem,
    @set_textblk_family Sample.toolkit Sample.repository
       (Some (Sample.item Sample.ab_demibold 0 0)) "Arial" = Ok (Some blkitem') /\
    FontFamily <$> (cell_format <$> cells (document blkitem')) =
      [Some "Arial"; Some "Arial"] /\
    FontWeight <$> (cell_format <$> cells (document blkitem')) = [Some 75; Some 75] /\
    FontPointSize <$> (cell_format <$> cells (document blkitem')) =
      FontPointSize <$> (cell_format <$> cells Sample.ab_demibold).
Proof.
  split; [reflexivity|]. eexists. split; [vm_compute; reflexivity|].
  repeat split.
Qed.

(** ** The arrows of the font-size box on integer sizes *)

Lemma arrows_step_properly_all :
  forallb arrows_step_properly (Z.of_nat <$> seq 1 1000) = true.
Proof. vm_compute. reflexivity. Qed.

(** On an integer size [n] between 1 and 1000, the up arrow emits one signal
    and no more, an integer size above [n] and at most 1000, unless [n] is
    1000, where it emits nothing; the down arrow emits one signal and no
    more, an integer size below [n] and at least 1, unless [n] is 1, where it
    emits nothing. *)
Theorem arrows_on_integer_sizes (n : Z) :
  1 <= n <= 1000 ->
  (n < 1000 ->
     exists m : Z, n < m <= 1000 /\
       emitted (onUpBtnClicked (box_showing n 1)) = [apply_fontsize (float_of_Z m)]) /\
  (n = 1000 -> emitted (onUpBtnClicked (box_showing n 1)) = []) /\
  (1 < n ->
     exists m : Z, 1 <= m < n /\
       emitted (onDownBtnClicked (box_showing n 1)) = [apply_fontsize (float_of_Z m)]) /\
  (n = 1 -> emitted (onDownBtnClicked (box_showing n 1)) = []).
Proof.
  intros Hn.
  assert (Hall := arrows_step_properly_all).
  rewrite forallb_forall in Hall.
  assert (Hin : In n (Z.of_nat <$> seq 1 1000)).
  { apply list_elem_of_In, list_elem_of_fmap. exists (Z.to_nat n). split; [lia|].
    apply list_elem_of_In, in_seq. lia. }
  specialize (Hall n Hin). unfold arrows_step_properly in Hall.
  apply andb_true_iff in Hall as [Hup Hdown].
  assert (Hone : forall lo hi sigs,
             emits_one_integer_between lo hi sigs = true ->
             exists m : Z, lo <= m <= hi /\ sigs = [apply_fontsize (float_of_Z m)]).
  { intros lo hi sigs Hb. unfold emits_one_integer_between in Hb.
    destruct sigs as [|[a|x|] [|? ?]]; try discriminate Hb.
    destruct (int_of_float x) as [m|]; [|discriminate Hb].
    apply andb_true_iff in Hb as [Hb Hhi]. apply andb_true_iff in Hb as [Heq Hlo].
    apply bool_decide_eq_true in Heq. apply Z.leb_le in Hlo, Hhi.
    exists m. split; [lia|]. rewrite <- Heq. reflexivity. }
  assert (Hnone : forall sigs : list Signal, emits_nothing sigs = true -> sigs = []).
  { intros [|? ?] Hb; [reflexivity|discriminate Hb]. }
  split; [|split; [|split]].
  - intros Hlt. apply Z.ltb_lt in Hlt. rewrite Hlt in Hup.
    destruct (Hone _ _ _ Hup) as (m & Hm & ->). exists m. split; [lia|reflexivity].
  - intros ->. apply Hnone. exact Hup.
  - intros Hlt. apply Z.ltb_lt in Hlt. rewrite Hlt in Hdown.
    destruct (Hone _ _ _ Hdown) as (m & Hm & ->). exists m. split; [lia|reflexivity].
  - intros ->. apply Hnone. exact Hdown.
Qed.

(** Size 24: one size above it from the up arrow, one below it from the down
    arrow. *)
Lemma arrows_on_integer_sizes_witness :
  (exists m : Z, 24 < m <= 1000 /\
     emitted (onUpBtnClicked (box_showing 24 1)) = [apply_fontsize (float_of_Z m)]) /\
  (exists m : Z, 1 <= m < 24 /\
     emitted (onDownBtnClicked (box_showing 24 1)) = [apply_fontsize (float_of_Z m)]).
Proof.
  destruct (arrows_on_integer_sizes 24 ltac:(lia)) as (Hup & _ & Hdown & _).
  split; [apply Hup; lia|apply Hdown; lia].
Defined.

(** ** The fragments of a document *)









(** ** The family written over a selection *)

Section Family.
Context `{Toolkit} `{Repository}.









End Family.




(** ** Merging one property into the selection *)

Lemma merge_setFontWeight w f :
  merge (setFontWeight w QTextCharFormat_new) f = setFontWeight w f.
Proof. destruct f; reflexivity. Qed.

Lemma merge_setFontItalic b f :
  merge (setFontItalic b QTextCharFormat_new) f = setFontItalic b f.
Proof. destruct f; reflexivity. Qed.

Lemma merge_setFontUnderline b f :
  merge (setFontUnderline b QTextCharFormat_new) f = setFontUnderline b f.
Proof. destruct f; reflexivity. Qed.

Lemma map_cell_format_char g c : cell_char (map_cell_format g c) = cell_char c.
Proof. destruct c; reflexivity. Qed.

Lemma format_range_text g pos1 pos2 cs :
  cell_char <$> format_range g pos1 pos2 cs = cell_char <$> cs.
Proof.
  apply list_eq. intros i. rewrite !list_lookup_fmap, format_range_lookup.
  destruct (cs !! i) as [c|]; [|done]. cbn.
  destruct (in_range pos1 pos2 i); rewrite ?map_cell_format_char; done.
Qed.

Lemma format_range_ext g g' pos1 pos2 cs :
  (forall f, g f = g' f) -> format_range g pos1 pos2 cs = format_range g' pos1 pos2 cs.
Proof.
  intros Hg. apply list_eq. intros i. rewrite !format_range_lookup.
  destruct (cs !! i) as [c|]; [|done]. cbn.
  destruct (in_range pos1 pos2 i); [|done]. destruct c; cbn; rewrite Hg; done.
Qed.

Lemma format_range_twice g g' pos1 pos2 cs :
  format_range g' pos1 pos2 (format_range g pos1 pos2 cs) =
  format_range (fun f => g' (g f)) pos1 pos2 cs.
Proof.
  apply list_eq. intros i. rewrite !format_range_lookup.
  destruct (cs !! i) as [c|]; [|done]. cbn.
  destruct (in_range pos1 pos2 i); [|done]. destruct c; done.
Qed.

(** [mergeCharFormat] maps the selected range, an empty one when nothing is
    selected, and leaves the cursor where it is. *)
Lemma mergeCharFormat_run m d c :
  exists c1,
    mergeCharFormat m d c =
    (mkDocument (initialBlockCharFormat d)
                (format_range (merge m) (selectionStart c) (selectionEnd c) (cells d))
                (defaultFont d), c1) /\
    position c1 = position c /\ anchor c1 = anchor c.
Proof.
  unfold mergeCharFormat. destruct (hasSelection c) eqn:E.
  - exists c. done.
  - exists (mkCursor (position c) (anchor c) (Some (merge m (charFormat d c)))).
    split; [|done]. rewrite format_range_empty.
    + rewrite document_eta. reflexivity.
    + apply hasSelection_false in E. unfold selectionStart, selectionEnd. lia.
Qed.

(** The range an operation works on is the range the next one works on: a
    cursor put back on [max] and [min] has the effective selection it had. *)
Lemma effective_selection_put_back (b b' : TextBlkItem) :
  cursor_in_document b ->
  lastPosition (document b') = lastPosition (document b) ->
  position (textCursor b') = Z.max (position (textCursor b)) (anchor (textCursor b)) ->
  anchor (textCursor b') = Z.min (position (textCursor b)) (anchor (textCursor b)) ->
  selectionStart (effective_cursor b') = selectionStart (effective_cursor b) /\
  selectionEnd (effective_cursor b') = selectionEnd (effective_cursor b) /\
  cursor_in_document b'.
Proof.
  intros [Hp Ha] Hlast Hp' Ha'.
  assert (Hin : cursor_in_document b') by (unfold cursor_in_document; lia).
  split; [|split; [|exact Hin]].
  all: unfold effective_cursor.
  all: destruct (hasSelection (textCursor b)) eqn:E.
  all: unfold hasSelection in *.
  all: try (apply negb_true_iff, Z.eqb_neq in E;
            replace (position (textCursor b') =? anchor (textCursor b')) with false
              by (symmetry; apply Z.eqb_neq; lia);
            cbn [negb]; unfold selectionStart, selectionEnd; lia).
  all: apply negb_false_iff, Z.eqb_eq in E;
       replace (position (textCursor b') =? anchor (textCursor b')) with true
         by (symmetry; apply Z.eqb_eq; lia);
       cbn [negb];
       destruct (select_Document_spec (document b) (textCursor b)) as [Ea Ep];
       destruct (select_Document_spec (document b') (textCursor b')) as [Ea' Ep'];
       unfold selectionStart, selectionEnd; rewrite Ea, Ep, Ea', Ep', Hlast; done.
Qed.

Section Merging.
Context `{Repository}.

(** A decorated [merge_func] on an item with a sound cursor and stroke
    width. *)
Lemma merge_op_run (m : QTextCharFormat) (b : TextBlkItem) :
  feqb (stroke_width b) (stroke_width b) = true ->
  cursor_in_document b ->
  exists b',
    restore_textcursor (merge_func m) (Some b) = Ok (Some b') /\
    selection_formatted (merge m) b b'.
Proof.
  intros Hnan [Hp Ha].
  set (c := effective_cursor b). set (d := document b).
  destruct (mergeCharFormat_run m d c) as (c1 & Hm & Hp1 & Ha1).
  set (d1 := mkDocument (initialBlockCharFormat d)
               (format_range (merge m) (selectionStart c) (selectionEnd c) (cells d))
               (defaultFont d)) in *.
  set (cur := restored_cursor (negb (hasSelection (textCursor b)))
                (position (textCursor b)) (anchor (textCursor b)) d1 c1).
  exists (setTextCursor cur (with_document d1 b)). split.
  - rewrite restore_textcursor_unfold. unfold merge_func. fold c d. rewrite Hm.
    cbn [mbind result_bind]. unfold put_back, repaint_if_changed.
    cbn [stroke_width document setTextCursor with_document].
    rewrite (feqb_refl_not_nan _ Hnan). reflexivity.
  - assert (Hlast : lastPosition d1 = lastPosition d).
    { unfold lastPosition, d1. cbn [cells]. rewrite format_range_length. done. }
    destruct (restored_cursor_spec (negb (hasSelection (textCursor b)))
                (position (textCursor b)) (anchor (textCursor b)) d1 c1) as [Hcp Hca].
    { intros E. apply negb_true_iff in E. apply hasSelection_false in E. done. }
    { lia. }
    { rewrite Hlast. fold d in Hp, Ha. lia. }
    unfold selection_formatted. cbn [document textCursor setTextCursor with_document].
    fold c d. split; [|split; [|split; [|split; [|split; [|split; [|split]]]]]].
    + intros i x Hx. unfold d1. cbn [cells]. rewrite format_range_lookup, Hx. done.
    + unfold d1. cbn [cells]. apply format_range_length.
    + unfold toPlainText, d1. cbn [cells]. apply format_range_text.
    + reflexivity.
    + reflexivity.
    + exact Hcp.
    + exact Hca.
    + reflexivity.
Qed.

End Merging.

(** For an item whose stroke width is a number and whose cursor lies in its
    document, [set_textblk_weight], [set_textblk_italic] and
    [set_textblk_underline] return normally.  Each sets its one property in
    the format of every cell of the effective selection and keeps the other
    properties of that format; cells outside the selection, the text, the
    first block's format and the default font stay as they are; the cursor
    is back on the range it spanned, and nothing else of the item changes. *)
Theorem set_textblk_weight_italic_underline_spec `{Repository} (blkitem : TextBlkItem) :
  feqb (stroke_width blkitem) (stroke_width blkitem) = true ->
  cursor_in_document blkitem ->
  (forall weight : Z, exists blkitem',
     set_textblk_weight (Some blkitem) weight = Ok (Some blkitem') /\
     selection_formatted (setFontWeight weight) blkitem blkitem') /\
  (forall italic : bool, exists blkitem',
     set_textblk_italic (Some blkitem) italic = Ok (Some blkitem') /\
     selection_formatted (setFontItalic italic) blkitem blkitem') /\
  (forall underline : bool, exists blkitem',
     set_textblk_underline (Some blkitem) underline = Ok (Some blkitem') /\
     selection_formatted (setFontUnderline underline) blkitem blkitem').
Proof.
  intros Hnan Hin.
  assert (Hext : forall g g' b b',
             (forall f, g f = g' f) -> selection_formatted g b b' ->
             selection_formatted g' b b').
  { intros g g' b b' Hg (H1 & Hrest). split; [|exact Hrest].
    intros i c Hc. rewrite (H1 i c Hc).
    destruct (in_range _ _ i); [|done]. destruct c; cbn; rewrite Hg; done. }
  split; [|split].
  - intros w. destruct (merge_op_run (setFontWeight w QTextCharFormat_new) blkitem Hnan Hin)
      as (b' & Hb & Hf).
    exists b'. split; [exact Hb|]. eapply Hext; [|exact Hf]. apply merge_setFontWeight.
  - intros i. destruct (merge_op_run (setFontItalic i QTextCharFormat_new) blkitem Hnan Hin)
      as (b' & Hb & Hf).
    exists b'. split; [exact Hb|]. eapply Hext; [|exact Hf]. apply merge_setFontItalic.
  - intros u. destruct (merge_op_run (setFontUnderline u QTextCharFormat_new) blkitem Hnan Hin)
      as (b' & Hb & Hf).
    exists b'. split; [exact Hb|]. eapply Hext; [|exact Hf]. apply merge_setFontUnderline.
Qed.

(** On "abcd" with positions 1 to 3 selected backwards. *)
Lemma set_textblk_weight_italic_underline_spec_witness :
  feqb (stroke_width (Sample.item Sample.abcd 1 3))
       (stroke_width (Sample.item Sample.abcd 1 3)) = true /\
  cursor_in_document (Sample.item Sample.abcd 1 3) /\
  exists blkitem',
    @set_textblk_weight Sample.repository (Some (Sample.item Sample.abcd 1 3)) Bold =
      Ok (Some blkitem') /\
    selection_formatted (setFontWeight Bold) (Sample.item Sample.abcd 1 3) blkitem'.
Proof.
  assert (Hin : cursor_in_document (Sample.item Sample.abcd 1 3))
    by (vm_compute; repeat split; discriminate).
  split; [reflexivity|]. split; [exact Hin|].
  exact (proj1 (@set_textblk_weight_italic_underline_spec Sample.repository
                  (Sample.item Sample.abcd 1 3) eq_refl Hin) Bold).
Defined.

(** ** One operation after another *)

(** Let a wrapped function return normally, keep the length of the document
    and the stroke width of an item whose cursor lies in its document.  Then
    the item the decorated call leaves has the effective selection the item
    had: the next formatting operation works on the same range. *)
Theorem restore_textcursor_keeps_effective_selection `{Repository}
  (formatting_func : Formatting) (blkitem blkitem' : TextBlkItem) (cursor' : QTextCursor) :
  cursor_in_document blkitem ->
  formatting_func blkitem (effective_cursor blkitem) = Ok (blkitem', cursor') ->
  lastPosition (document blkitem') = lastPosition (document blkitem) ->
  feqb (stroke_width blkitem') (stroke_width blkitem) = true ->
  exists after : TextBlkItem,
    restore_textcursor formatting_func (Some blkitem) = Ok (Some after) /\
    document after = document blkitem' /\
    selectionStart (effective_cursor after) = selectionStart (effective_cursor blkitem) /\
    selectionEnd (effective_cursor after) = selectionEnd (effective_cursor blkitem) /\
    cursor_in_document after.
Proof.
  intros Hin Hf Hlast Hsw.
  set (cur := restored_cursor (negb (hasSelection (textCursor blkitem)))
                (position (textCursor blkitem)) (anchor (textCursor blkitem))
                (document blkitem') cursor').
  exists (setTextCursor cur blkitem'). split; [|split; [reflexivity|]].
  - rewrite restore_textcursor_unfold, Hf. cbn [mbind result_bind].
    unfold put_back, repaint_if_changed. cbn [stroke_width setTextCursor].
    rewrite Hsw. reflexivity.
  - destruct Hin as [Hp Ha].
    destruct (restored_cursor_spec (negb (hasSelection (textCursor blkitem)))
                (position (textCursor blkitem)) (anchor (textCursor blkitem))
                (document blkitem') cursor') as [Hcp Hca].
    { intros E. apply negb_true_iff in E. apply hasSelection_false in E. done. }
    { lia. }
    { lia. }
    apply effective_selection_put_back; [split; assumption|exact Hlast|exact Hcp|exact Hca].
Qed.

(** [set_textblk_strokecolor] with the sample setter, on "abcd" with the
    cursor at 2. *)
Lemma restore_textcursor_keeps_effective_selection_witness :
  exists after : TextBlkItem,
    @restore_textcursor Sample.repository
       (@strokecolor_func Sample.repository [255; 0; 0])
       (Some (Sample.item Sample.abcd 2 2)) = Ok (Some after) /\
    selectionStart (effective_cursor after) = 0 /\
    selectionEnd (effective_cursor after) = 4.
Proof.
  destruct (@restore_textcursor_keeps_effective_selection Sample.repository
              (@strokecolor_func Sample.repository [255; 0; 0])
              (Sample.item Sample.abcd 2 2)
              (Sample.setStrokeColor [255; 0; 0] (Sample.item Sample.abcd 2 2))
              (effective_cursor (Sample.item Sample.abcd 2 2)))
    as (after & Hr & _ & Hs & He & _).
  - vm_compute. repeat split; discriminate.
  - reflexivity.
  - reflexivity.
  - reflexivity.
  - exists after. split; [exact Hr|]. split; [exact Hs|exact He].
Defined.

Section Composing.
Context `{Repository}.

Lemma selection_formatted_sound (g : QTextCharFormat -> QTextCharFormat) b b' :
  feqb (stroke_width b) (stroke_width b) = true ->
  cursor_in_document b ->
  selection_formatted g b b' ->
  feqb (stroke_width b') (stroke_width b') = true /\
  cursor_in_document b' /\
  selectionStart (effective_cursor b') = selectionStart (effective_cursor b) /\
  selectionEnd (effective_cursor b') = selectionEnd (effective_cursor b) /\
  cells (document b') =
    format_range g (selectionStart (effective_cursor b)) (selectionEnd (effective_cursor b))
                 (cells (document b)).
Proof.
  intros Hnan Hin (Hc & Hlen & _ & _ & _ & Hp & Ha & Hb).
  assert (Hlast : lastPosition (document b') = lastPosition (document b))
    by (unfold lastPosition; rewrite Hlen; done).
  destruct (effective_selection_put_back b b' Hin Hlast Hp Ha) as (Hs & He & Hin').
  split; [rewrite Hb; exact Hnan|]. split; [exact Hin'|]. split; [exact Hs|].
  split; [exact He|].
  apply list_eq. intros i. rewrite format_range_lookup.
  destruct (cells (document b) !! i) as [c|] eqn:Ec.
  - rewrite (Hc i c Ec). reflexivity.
  - cbn. apply lookup_ge_None. apply lookup_ge_None in Ec. lia.
Qed.

(** Two merges, one after the other. *)
Lemma merge_ops_run (m1 m2 : QTextCharFormat) (b : TextBlkItem) :
  feqb (stroke_width b) (stroke_width b) = true ->
  cursor_in_document b ->
  exists b2,
    (restore_textcursor (merge_func m1) (Some b)
       ≫= restore_textcursor (merge_func m2)) = Ok (Some b2) /\
    cells (document b2) =
      format_range (fun f => merge m2 (merge m1 f))
                   (selectionStart (effective_cursor b)) (selectionEnd (effective_cursor b))
                   (cells (document b)) /\
    initialBlockCharFormat (document b2) = initialBlockCharFormat (document b) /\
    defaultFont (document b2) = defaultFont (document b) /\
    position (textCursor b2) = Z.max (position (textCursor b)) (anchor (textCursor b)) /\
    anchor (textCursor b2) = Z.min (position (textCursor b)) (anchor (textCursor b)).
Proof.
  intros Hnan Hin.
  destruct (merge_op_run m1 b Hnan Hin) as (b1 & Hb1 & Hf1).
  destruct (selection_formatted_sound _ b b1 Hnan Hin Hf1)
    as (Hnan1 & Hin1 & Hs1 & He1 & Hc1).
  destruct (merge_op_run m2 b1 Hnan1 Hin1) as (b2 & Hb2 & Hf2).
  destruct (selection_formatted_sound _ b1 b2 Hnan1 Hin1 Hf2)
    as (_ & _ & _ & _ & Hc2).
  exists b2. split; [rewrite Hb1; exact Hb2|].
  destruct Hf1 as (_ & _ & _ & Hi1 & Hd1 & Hp1 & Ha1 & _).
  destruct Hf2 as (_ & _ & _ & Hi2 & Hd2 & Hp2 & Ha2 & _).
  split; [rewrite Hc2, Hs1, He1, Hc1; apply format_range_twice|].
  split; [congruence|]. split; [congruence|].
  rewrite Hp2, Ha2, Hp1, Ha1. lia.
Qed.

End Composing.

(** On an item whose stroke width is a number and whose cursor lies in its
    document, setting the weight and then the italic flag gives the document
    and cursor range that setting the italic flag and then the weight gives,
    and setting the same weight twice gives what setting it once gives. *)
Theorem weight_and_italic_commute `{Repository}
  (blkitem : TextBlkItem) (weight : Z) (italic : bool) :
  feqb (stroke_width blkitem) (stroke_width blkitem) = true ->
  cursor_in_document blkitem ->
  exists wi iw w ww : TextBlkItem,
    (set_textblk_weight (Some blkitem) weight ≫= fun b => set_textblk_italic b italic)
      = Ok (Some wi) /\
    (set_textblk_italic (Some blkitem) italic ≫= fun b => set_textblk_weight b weight)
      = Ok (Some iw) /\
    set_textblk_weight (Some blkitem) weight = Ok (Some w) /\
    (set_textblk_weight (Some blkitem) weight ≫= fun b => set_textblk_weight b weight)
      = Ok (Some ww) /\
    same_document_and_range wi iw /\
    document ww = document w.
Proof.
  intros Hnan Hin.
  set (mw := setFontWeight weight QTextCharFormat_new).
  set (mi := setFontItalic italic QTextCharFormat_new).
  destruct (merge_ops_run mw mi blkitem Hnan Hin) as (wi & Hwi & Cwi & Iwi & Dwi & Pwi & Awi).
  destruct (merge_ops_run mi mw blkitem Hnan Hin) as (iw & Hiw & Ciw & Iiw & Diw & Piw & Aiw).
  destruct (merge_ops_run mw mw blkitem Hnan Hin) as (ww & Hww & Cww & Iww & Dww & _).
  destruct (merge_op_run mw blkitem Hnan Hin) as (w & Hw & Fw).
  destruct (selection_formatted_sound _ blkitem w Hnan Hin Fw) as (_ & _ & _ & _ & Cw).
  destruct Fw as (_ & _ & _ & Iw & Dw & _).
  assert (Heta : forall d1 d2 : QTextDocument,
             initialBlockCharFormat d1 = initialBlockCharFormat d2 ->
             cells d1 = cells d2 -> defaultFont d1 = defaultFont d2 -> d1 = d2).
  { intros [] [] ? ? ?. cbn in *. congruence. }
  exists wi, iw, w, ww.
  split; [exact Hwi|]. split; [exact Hiw|]. split; [exact Hw|]. split; [exact Hww|].
  split; [split; [|split]|].
  - apply Heta; [congruence| |congruence].
    rewrite Cwi, Ciw. apply format_range_ext. intros f. destruct f; reflexivity.
  - congruence.
  - congruence.
  - apply Heta; [congruence| |congruence].
    rewrite Cww, Cw. apply format_range_ext. intros f. destruct f; reflexivity.
Qed.

(** On "abcd" with positions 1 to 3 selected backwards. *)
Lemma weight_and_italic_commute_witness :
  exists wi iw : TextBlkItem,
    (@set_textblk_weight Sample.repository (Some (Sample.item Sample.abcd 1 3)) Bold
       ≫= fun b => @set_textblk_italic Sample.repository b true) = Ok (Some wi) /\
    (@set_textblk_italic Sample.repository (Some (Sample.item Sample.abcd 1 3)) true
       ≫= fun b => @set_textblk_weight Sample.repository b Bold) = Ok (Some iw) /\
    same_document_and_range wi iw.
Proof.
  destruct (@weight_and_italic_commute Sample.repository
              (Sample.item Sample.abcd 1 3) Bold true eq_refl)
    as (wi & iw & _ & _ & Hwi & Hiw & _ & _ & Hsame & _).
  - vm_compute. repeat split; discriminate.
  - exists wi, iw. split; [exact Hwi|]. split; [exact Hiw|exact Hsame].
Defined.

(** ** The alignment index *)

(** With an item, [set_textblk_alignment] indexes the three flags the way
    Python indexes a list: 0, 1, 2 are left, centre and right, the indices
    -3, -2, -1 count from the end and give left, centre and right again, and
    any other index raises [IndexError] before the item is touched. *)
Theorem set_textblk_alignment_index `{Repository}
  (blkitem : TextBlkItem) (cursor : QTextCursor) (alignment : Z) :
  (-3 <= alignment <= 2 ->
     alignment_func alignment blkitem cursor =
       Ok (TextBlkItem_setAlignment (flag_at alignment) blkitem, cursor)) /\
  (alignment < -3 \/ 2 < alignment ->
     alignment_func alignment blkitem cursor = Raise IndexError /\
     set_textblk_alignment (Some blkitem) alignment = Raise IndexError).
Proof.
  split.
  - intros Ha.
    assert (Hcase : alignment = -3 \/ alignment = -2 \/ alignment = -1 \/
                    alignment = 0 \/ alignment = 1 \/ alignment = 2) by lia.
    destruct Hcase as [->|[->|[->|[->|[->| ->]]]]]; reflexivity.
  - intros Ha.
    assert (Hidx : index [AlignLeft; AlignCenter; AlignRight] alignment = Raise IndexError).
    { unfold index. cbn [length]. destruct (alignment <? 0) eqn:E.
      - apply Z.ltb_lt in E.
        replace (0 <=? Z.of_nat 3 + alignment) with false
          by (symmetry; apply Z.leb_gt; lia).
        reflexivity.
      - apply Z.ltb_ge in E.
        replace (alignment <? Z.of_nat 3) with false
          by (symmetry; apply Z.ltb_ge; lia).
        rewrite andb_false_r. reflexivity. }
    split.
    + unfold alignment_func. rewrite Hidx. reflexivity.
    + unfold set_textblk_alignment. rewrite restore_textcursor_unfold.
      unfold alignment_func. rewrite Hidx. reflexivity.
Qed.

(** Index -1 is the right flag; index 3 raises. *)
Lemma set_textblk_alignment_index_witness :
  @alignment_func Sample.repository (-1) (Sample.item Sample.abcd 0 0) (mkCursor 0 0 None) =
    Ok (Sample.setAlignment AlignRight (Sample.item Sample.abcd 0 0), mkCursor 0 0 None) /\
  @set_textblk_alignment Sample.repository (Some (Sample.item Sample.abcd 0 0)) 3 =
    Raise IndexError.
Proof.
  split.
  - apply (proj1 (@set_textblk_alignment_index Sample.repository
                    (Sample.item Sample.abcd 0 0) (mkCursor 0 0 None) (-1))). lia.
  - apply (proj2 (@set_textblk_alignment_index Sample.repository
                    (Sample.item Sample.abcd 0 0) (mkCursor 0 0 None) 3)). lia.
Defined.

(** ** The arrows of the font-size box, whatever the box shows *)

Lemma arrow_outcome (factor : float) (nudge : Z) (clamp : Z -> Z) (box : FontSizeBox)
  (o : Outcome FontSizeBox unit) :
  o = (size ← getFontSize;
       newsize ← lift (Py.round (fmul size factor));
       let newsize := if int_eq_float newsize size then newsize + nudge else newsize in
       let newsize := clamp newsize in
       if negb (int_eq_float newsize size) then
         emit (apply_fontsize (float_of_Z newsize));;
         modify (fun box => mkFontSizeBox (setCurrentText (float_of_Z newsize) (fcombobox box)))
       else mret tt) box ->
  match currentText (fcombobox box) with
  | None => o = mkOutcome box [] (Raise ValueError)
  | Some x =>
      match Py.round (fmul x factor) with
      | Raise e => o = mkOutcome box [] (Raise e)
      | Ok n =>
          let m := clamp (if int_eq_float n x then n + nudge else n) in
          if int_eq_float m x then o = mkOutcome box [] (Ok tt)
          else o = mkOutcome (mkFontSizeBox (setCurrentText (float_of_Z m) (fcombobox box)))
                             [apply_fontsize (float_of_Z m)] (Ok tt)
      end
  end.
Proof.
  intros ->.
  cbv [getFontSize mbind method_bind get lift value emit modify mret method_ret].
  cbn [final emitted returned app].
  destruct (currentText (fcombobox box)) as [x|] eqn:Ex; cbn [final emitted returned app];
    [|reflexivity].
  destruct (Py.round (fmul x factor)) as [n|e] eqn:Er; cbn [final emitted returned app];
    [|reflexivity].
  cbv zeta.
  destruct (int_eq_float (clamp (if int_eq_float n x then n + nudge else n)) x);
    reflexivity.
Qed.

Lemma arrow_click (factor : float) (nudge : Z) (clamp : Z -> Z) (box : FontSizeBox)
  (o : Outcome FontSizeBox unit) :
  o = (size ← getFontSize;
       newsize ← lift (Py.round (fmul size factor));
       let newsize := if int_eq_float newsize size then newsize + nudge else newsize in
       let newsize := clamp newsize in
       if negb (int_eq_float newsize size) then
         emit (apply_fontsize (float_of_Z newsize));;
         modify (fun box => mkFontSizeBox (setCurrentText (float_of_Z newsize) (fcombobox box)))
       else mret tt) box ->
  (forall x, apply_fontsize x ∈ emitted o ->
     (exists k : Z, x = float_of_Z (clamp k)) /\
     emitted o = [apply_fontsize x] /\
     currentText (fcombobox (final o)) = Some x /\
     returned o = Ok tt) /\
  (emitted o = [] -> final o = box) /\
  (forall e, returned o = Raise e <->
     (currentText (fcombobox box) = None /\ e = ValueError \/
      exists x, currentText (fcombobox box) = Some x /\
                Py.round (fmul x factor) = Raise e)) /\
  (forall e, returned o = Raise e -> emitted o = [] /\ final o = box).
Proof.
  intros Ho. pose proof (arrow_outcome factor nudge clamp box o Ho) as Hout. clear Ho.
  destruct (currentText (fcombobox box)) as [x|] eqn:Ex.
  - destruct (Py.round (fmul x factor)) as [n|e0] eqn:Er.
    + cbv zeta in Hout.
      set (m := clamp (if int_eq_float n x then n + nudge else n)) in *.
      destruct (int_eq_float m x); subst o; cbn [final emitted returned].
      * split; [intros y Hy; apply elem_of_nil in Hy; done|].
        split; [done|]. split; [|intros e [=]].
        intros e. split; [intros [=]|].
        intros [[[=] _]|(y & [= <-] & Hr)]. rewrite Er in Hr. discriminate Hr.
      * split.
        { intros y Hy. apply list_elem_of_singleton in Hy. injection Hy as ->.
          split; [eexists; reflexivity|done]. }
        split; [intros [=]|]. split; [|intros e [=]].
        intros e. split; [intros [=]|].
        intros [[[=] _]|(y & [= <-] & Hr)]. rewrite Er in Hr. discriminate Hr.
    + subst o; cbn [final emitted returned].
      split; [intros y Hy; apply elem_of_nil in Hy; done|].
      split; [done|]. split; [|done].
      intros e. split.
      * intros [= <-]. right. exists x. done.
      * intros [[[=] _]|(y & [= <-] & Hr)]. rewrite Er in Hr. injection Hr as <-. reflexivity.
  - subst o; cbn [final emitted returned].
    split; [intros y Hy; apply elem_of_nil in Hy; done|].
    split; [done|]. split; [|done].
    intros e. split.
    + intros [= <-]. left. done.
    + intros [[_ ->]|(y & [=] & _)]. reflexivity.
Qed.

(** Whatever text the font-size box shows, a click on an arrow either emits
    one size and leaves the box showing that very size, or emits nothing and
    leaves the box as it is.  A size the up arrow emits is an integer of at
    most 1000, and one the down arrow emits is an integer of at least 1.  A
    click raises exactly when the text is not a number ([ValueError]) or when
    [round] refuses the size times 1.25 (up) or times 0.75 (down), with
    [round]'s exception; and a click that raises has emitted nothing and left
    the box as it was. *)
Theorem arrows_emit_what_they_show (box : FontSizeBox) :
  (forall x, apply_fontsize x ∈ emitted (onUpBtnClicked box) ->
     (exists m : Z, x = float_of_Z m /\ m <= 1000) /\
     emitted (onUpBtnClicked box) = [apply_fontsize x] /\
     currentText (fcombobox (final (onUpBtnClicked box))) = Some x /\
     returned (onUpBtnClicked box) = Ok tt) /\
  (forall x, apply_fontsize x ∈ emitted (onDownBtnClicked box) ->
     (exists m : Z, x = float_of_Z m /\ 1 <= m) /\
     emitted (onDownBtnClicked box) = [apply_fontsize x] /\
     currentText (fcombobox (final (onDownBtnClicked box))) = Some x /\
     returned (onDownBtnClicked box) = Ok tt) /\
  (emitted (onUpBtnClicked box) = [] -> final (onUpBtnClicked box) = box) /\
  (emitted (onDownBtnClicked box) = [] -> final (onDownBtnClicked box) = box) /\
  (forall e, returned (onUpBtnClicked box) = Raise e <->
     (currentText (fcombobox box) = None /\ e = ValueError \/
      exists x, currentText (fcombobox box) = Some x /\
                Py.round (fmul x lit_1_25) = Raise e)) /\
  (forall e, returned (onDownBtnClicked box) = Raise e <->
     (currentText (fcombobox box) = None /\ e = ValueError \/
      exists x, currentText (fcombobox box) = Some x /\
                Py.round (fmul x lit_0_75) = Raise e)) /\
  (forall e, returned (onUpBtnClicked box) = Raise e ->
     emitted (onUpBtnClicked box) = [] /\ final (onUpBtnClicked box) = box) /\
  (forall e, returned (onDownBtnClicked box) = Raise e ->
     emitted (onDownBtnClicked box) = [] /\ final (onDownBtnClicked box) = box).
Proof.
  destruct (arrow_click lit_1_25 1 (Z.min 1000) box (onUpBtnClicked box) eq_refl)
    as (Hu1 & Hu2 & Hu3 & Hu4).
  destruct (arrow_click lit_0_75 (-1) (Z.max 1) box (onDownBtnClicked box) eq_refl)
    as (Hd1 & Hd2 & Hd3 & Hd4).
  split; [|split; [|split; [exact Hu2|split; [exact Hd2|split; [exact Hu3|split;
    [exact Hd3|split; [exact Hu4|exact Hd4]]]]]]].
  - intros x Hx. destruct (Hu1 x Hx) as ((k & ->) & Hrest).
    split; [|exact Hrest]. eexists. split; [reflexivity|]. lia.
  - intros x Hx. destruct (Hd1 x Hx) as ((k & ->) & Hrest).
    split; [|exact Hrest]. eexists. split; [reflexivity|]. lia.
Qed.

(** With 24 in the box: the up arrow emits 30 and the box shows 30. *)
Lemma arrows_emit_what_they_show_witness :
  apply_fontsize (float_of_Z 30) ∈ emitted (onUpBtnClicked (box_showing 24 1)) /\
  currentText (fcombobox (final (onUpBtnClicked (box_showing 24 1)))) =
    Some (float_of_Z 30).
Proof.
  assert (Hin : apply_fontsize (float_of_Z 30) ∈ emitted (onUpBtnClicked (box_showing 24 1))).
  { vm_compute. apply list_elem_of_here. }
  split; [exact Hin|].
  exact (proj1 (proj2 (proj2 (proj1 (arrows_emit_what_they_show (box_showing 24 1)) _ Hin)))).
Defined.

(** ** The panel, one call after another *)

Section PanelSequences.
Context `{Toolkit} `{Repository}.

Lemma set_textblk_item_select_run p item n :
  restoring_textblk p = false ->
  int_of_float (FontFormat.size (TextBlkItem_get_fontformat item)) = Ok n ->
  set_textblk_item (Some item) p =
  mkOutcome
    (setText ("TextBlock #" +:+ pretty (idx item))
       (with_controls (show_format (TextBlkItem_get_fontformat item) n (controls p))
          (with_active_format (Some (length (formats p)))
             (with_textblk_item (Some item)
                (with_formats (formats p ++ [TextBlkItem_get_fontformat item]) p)))))
    [] (Ok tt).
Proof.
  intros Hrest Hn. unfold set_textblk_item.
  rewrite bind_run, get_run. cbn [final emitted returned]. rewrite Hrest.
  cbn [negb]. rewrite bind_run, modify_run. cbn [final emitted returned].
  rewrite bind_run, modify_run. cbn [final emitted returned].
  rewrite bind_run,
    (set_active_format_run _ (length (formats p)) (TextBlkItem_get_fontformat item) n);
    [|cbn; rewrite lookup_app_r by lia; rewrite Nat.sub_diag; reflexivity|exact Hn].
  cbn [final emitted returned]. rewrite modify_run. reflexivity.
Qed.

Lemma set_textblk_item_deselect_run p g f n :
  focus_on_fmtoptions p = false ->
  global_format p = Some g ->
  formats p !! g = Some f ->
  int_of_float (FontFormat.size f) = Ok n ->
  set_textblk_item None p =
  mkOutcome
    (setText (global_fontfmt_str p)
       (with_controls (show_format f n (controls p))
          (with_active_format (Some g) (with_textblk_item None p))))
    [] (Ok tt).
Proof.
  intros Hfocus Hg Hf Hn. unfold set_textblk_item.
  rewrite bind_run, get_run. cbn [final emitted returned]. rewrite Hfocus.
  cbn [negb]. rewrite bind_run, modify_run. cbn [final emitted returned].
  rewrite bind_run, Hg, (set_active_format_run _ g f n) by assumption.
  cbn [final emitted returned]. rewrite modify_run. reflexivity.
Qed.

Lemma assign_none g p : assign None g p = mkOutcome p [] (Raise AttributeError).
Proof. reflexivity. Qed.

Lemma handle_without_format (h : Handler) p :
  active_format p = None -> ready h p = true ->
  handle h p = mkOutcome p [] (Raise AttributeError).
Proof.
  intros Ha Hr. destruct h; cbn [handle]; cbn [ready] in Hr.
  - unfold onColorChanged. rewrite bind_run, get_run. cbn [final emitted returned].
    rewrite bind_run, Ha, assign_none. reflexivity.
  - unfold onStrokeColorChanged. rewrite bind_run, get_run. cbn [final emitted returned].
    rewrite bind_run, Ha, assign_none. reflexivity.
  - unfold onApplyFontsize. rewrite bind_run, get_run. cbn [final emitted returned].
    rewrite bind_run, Ha, assign_none. reflexivity.
  - unfold onfontFamilyChanged. rewrite bind_run, get_run. cbn [final emitted returned].
    rewrite Hr. rewrite bind_run, Ha, assign_none. reflexivity.
  - unfold onfontBoldChanged. rewrite bind_run, get_run. cbn [final emitted returned].
    rewrite bind_run, Ha. destruct checked; rewrite bind_run, assign_none; reflexivity.
  - unfold onfontUnderlineChanged. rewrite bind_run, get_run. cbn [final emitted returned].
    rewrite bind_run, Ha, assign_none. reflexivity.
  - unfold onfontItalicChanged. rewrite bind_run, get_run. cbn [final emitted returned].
    rewrite bind_run, Ha, assign_none. reflexivity.
  - unfold onAlignmentChanged. rewrite bind_run, get_run. cbn [final emitted returned].
    rewrite bind_run, Ha, assign_none. reflexivity.
  - unfold onOrientationChanged. rewrite bind_run, get_run. cbn [final emitted returned].
    rewrite bind_run, Ha, assign_none. reflexivity.
  - unfold onSrokeWidthChanged. rewrite bind_run, get_run. cbn [final emitted returned].
    unfold value, lift.
    destruct (currentText (strokeWidthBox (controls p))) as [v|]; [|done].
    rewrite bind_run. cbn [final emitted returned].
    unfold update_stroke_width. rewrite bind_run, get_run. cbn [final emitted returned].
    rewrite bind_run, Ha, assign_none. reflexivity.
  - unfold onLinespacingChanged. rewrite bind_run, get_run. cbn [final emitted returned].
    unfold value, lift.
    destruct (currentText (lineSpacingBox (controls p))) as [v|]; [|done].
    rewrite bind_run. cbn [final emitted returned].
    unfold update_line_spacing. rewrite bind_run, get_run. cbn [final emitted returned].
    rewrite bind_run, Ha, assign_none. reflexivity.
Qed.

Lemma attribute_written_shown (h : Handler) p l f n :
  reads_controls h = true ->
  attribute_written h
    (with_controls (show_format f n (controls p)) (with_active_format (Some l) p)) f = f.
Proof.
  intros Hh. destruct h; try discriminate; destruct f; reflexivity.
Qed.

Lemma on_textblk_item_focus op p :
  focusOnColorDialog (final (on_textblk_item op p)) = focusOnColorDialog p.
Proof. unfold on_textblk_item. destruct (op (textblk_item p)); done. Qed.

Lemma colour_handler_clears g
  (op : FontFormat.t -> option TextBlkItem -> result (option TextBlkItem))
  (is_valid : bool) p l a f :
  l = Some a -> formats p !! a = Some f ->
  focusOnColorDialog
    (final ((assign l g;; modify (with_focusOnColorDialog false);;
             restoreTextBlkItem;;
             if is_valid then f0 ← deref l; on_textblk_item (op f0) else mret tt) p))
  = false.
Proof.
  intros -> Hf.
  rewrite bind_run, (assign_run _ _ _ _ Hf). cbn [final emitted returned].
  rewrite bind_run, modify_run. cbn [final emitted returned].
  rewrite bind_run, restoreTextBlkItem_run. cbn [final emitted returned].
  destruct is_valid; [|reflexivity].
  rewrite bind_run, (deref_run _ _ (g f)) by (cbn; apply (lookup_written _ _ f), Hf).
  cbn [final emitted returned]. rewrite on_textblk_item_focus. reflexivity.
Qed.

End PanelSequences.

(** With a block selected (the panel was not restoring one, and the block's
    font format has a finite size), a handler that is ready writes on the
    block's format object only: the object the global format points to is as
    it was, and [global_format_changed] is not emitted. *)
Theorem edits_with_block_leave_global_format `{Toolkit} `{Repository}
  (p : FontFormatPanel) (item : TextBlkItem) (n : Z) (g : loc) (fg : FontFormat.t)
  (h : Handler) :
  let p1 := final (set_textblk_item (Some item) p) in
  restoring_textblk p = false ->
  int_of_float (FontFormat.size (TextBlkItem_get_fontformat item)) = Ok n ->
  global_format p = Some g ->
  formats p !! g = Some fg ->
  ready h p1 = true ->
  indexes_alignment h p1 = true ->
  formats (final (handle h p1)) !! g = Some fg /\
  emitted (handle h p1) = [] /\
  formats (final (handle h p1)) !! length (formats p) =
    Some (attribute_written h p1 (TextBlkItem_get_fontformat item)).
Proof.
  intros p1 Hrest Hn Hg Hfg Hr Hi. subst p1.
  rewrite (set_textblk_item_select_run p item n Hrest Hn) in *.
  cbn [final] in *.
  set (p1 := setText _ _) in *.
  assert (Hnew : formats p1 !! length (formats p) = Some (TextBlkItem_get_fontformat item)).
  { cbn. rewrite lookup_app_r by lia. rewrite Nat.sub_diag. reflexivity. }
  assert (Hlt : (g < length (formats p))%nat) by (eapply lookup_lt_Some; exact Hfg).
  destruct (handle_ready h p1 (length (formats p)) (TextBlkItem_get_fontformat item))
    as [E1 E2]; [reflexivity|exact Hnew|exact Hr|exact Hi|].
  split; [|split].
  - rewrite E1. rewrite list_lookup_insert_ne by lia.
    cbn. rewrite lookup_app_l by lia. exact Hfg.
  - rewrite E2. cbn [active_format global_format p1 setText with_controls with_active_format
                     with_textblk_item with_formats].
    rewrite Hg.
    match goal with
    | |- context [@decide ?P ?d] => destruct (@decide P d) as [[= Heq]|_]; [lia|reflexivity]
    end.
  - rewrite E1. apply (lookup_written _ _ (TextBlkItem_get_fontformat item)). exact Hnew.
Qed.

(** The sample item selected on the sample panel, then a new size. *)
Lemma edits_with_block_leave_global_format_witness :
  formats (final (@handle Sample.toolkit Sample.repository (OnApplyFontsize (float_of_Z 30))
                    (final (@set_textblk_item Sample.repository
                              (Some (Sample.item Sample.abcd 0 0)) Sample.panel))))
    !! 0%nat = Some Sample.global_fmt /\
  emitted (@handle Sample.toolkit Sample.repository (OnApplyFontsize (float_of_Z 30))
             (final (@set_textblk_item Sample.repository
                       (Some (Sample.item Sample.abcd 0 0)) Sample.panel))) = [].
Proof.
  destruct (@edits_with_block_leave_global_format Sample.toolkit Sample.repository
              Sample.panel (Sample.item Sample.abcd 0 0) 24 0%nat Sample.global_fmt
              (OnApplyFontsize (float_of_Z 30)) eq_refl eq_refl eq_refl eq_refl eq_refl eq_refl)
    as (H1 & H2 & _).
  split; [exact H1|exact H2].
Defined.

(** Before a format is assigned ([active_format] is [None]), every handler
    that is ready raises [AttributeError] on its first line: the panel is not
    changed and nothing is emitted, although [None == None] would let
    [restoreTextBlkItem] signal. *)
Theorem handlers_without_active_format `{Toolkit} `{Repository}
  (h : Handler) (p : FontFormatPanel) :
  active_format p = None ->
  ready h p = true ->
  returned (handle h p) = Raise AttributeError /\
  final (handle h p) = p /\
  emitted (handle h p) = [].
Proof.
  intros Ha Hr. rewrite (handle_without_format h p Ha Hr). done.
Qed.

(** The sample panel before its formats are assigned. *)
Lemma handlers_without_active_format_witness :
  returned (@handle Sample.toolkit Sample.repository (OnfontBoldChanged true)
              (with_active_format None Sample.panel)) = Raise AttributeError.
Proof.
  exact (proj1 (@handlers_without_active_format Sample.toolkit Sample.repository
                  (OnfontBoldChanged true) (with_active_format None Sample.panel)
                  eq_refl eq_refl)).
Defined.

(** After [set_active_format] showed a format in the controls, the handlers
    that read their value from a control (colour, stroke colour, family,
    orientation, stroke width, line spacing) write back what the format
    already holds: the format objects are unchanged.  The size box shows the
    integer part of the size. *)
Theorem controls_round_trip `{Toolkit} `{Repository}
  (p : FontFormatPanel) (l : loc) (f : FontFormat.t) (n : Z) (h : Handler) :
  let p1 := final (set_active_format (Some l) p) in
  formats p !! l = Some f ->
  int_of_float (FontFormat.size f) = Ok n ->
  reads_controls h = true ->
  ready h p1 = true ->
  returned (set_active_format (Some l) p) = Ok tt /\
  formats (final (handle h p1)) = formats p /\
  getFontSize (fontsizebox (controls p1)) =
    mkOutcome (fontsizebox (controls p1)) [] (Ok (float_of_Z n)) /\
  value (strokeWidthBox (controls p1)) = Ok (FontFormat.stroke_width f) /\
  value (lineSpacingBox (controls p1)) = Ok (FontFormat.line_spacing f).
Proof.
  intros p1 Hf Hn Hh Hr. subst p1.
  rewrite (set_active_format_run p l f n Hf Hn) in *. cbn [final returned] in *.
  split; [reflexivity|]. split; [|split; [reflexivity|split; reflexivity]].
  set (p1 := with_controls _ _) in *.
  destruct (handle_ready h p1 l f) as [E1 _]; [reflexivity|exact Hf|exact Hr| |].
  { destruct h; try discriminate; reflexivity. }
  rewrite E1. subst p1. rewrite attribute_written_shown by exact Hh.
  cbn. apply list_insert_id. exact Hf.
Qed.

(** The global format shown on the sample panel, then the stroke-width
    handler. *)
Lemma controls_round_trip_witness :
  formats (final (@handle Sample.toolkit Sample.repository OnSrokeWidthChanged
                    (final (set_active_format (Some 0%nat) Sample.panel)))) =
    formats Sample.panel.
Proof.
  exact (proj1 (proj2 (@controls_round_trip Sample.toolkit Sample.repository
                         Sample.panel 0%nat Sample.global_fmt 24 OnSrokeWidthChanged
                         eq_refl eq_refl eq_refl eq_refl))).
Defined.

(** While a colour is being picked ([changingColor] was called),
    [set_textblk_item(None)] is ignored, wherever keyboard focus is: the
    block stays selected.  A colour handler, run with an active format,
    ends the picking, whether the colour is valid or not. *)
Theorem colour_picking_keeps_block `{Toolkit} `{Repository} (p : FontFormatPanel) :
  set_textblk_item None (final (changingColor p)) =
    mkOutcome (final (changingColor p)) [] (Ok tt) /\
  textblk_item (final (changingColor p)) = textblk_item p /\
  (forall (a : loc) (f : FontFormat.t) (is_valid : bool),
     active_format p = Some a -> formats p !! a = Some f ->
     focusOnColorDialog (final (onColorChanged is_valid (final (changingColor p)))) = false /\
     focusOnColorDialog (final (onStrokeColorChanged is_valid (final (changingColor p))))
       = false).
Proof.
  split; [|split].
  - unfold set_textblk_item. rewrite bind_run, get_run. cbn [final emitted returned].
    reflexivity.
  - reflexivity.
  - intros a f is_valid Ha Hf. cbn [changingColor modify final].
    set (p1 := with_focusOnColorDialog true p).
    assert (Ha1 : active_format p1 = Some a) by exact Ha.
    assert (Hf1 : formats p1 !! a = Some f) by exact Hf.
    split.
    + unfold onColorChanged. rewrite bind_run, get_run. cbn [final emitted returned].
      apply (colour_handler_clears _ (fun f0 b => set_textblk_color b (FontFormat.frgb f0))
                                   _ _ (active_format p1) a f); assumption.
    + unfold onStrokeColorChanged. rewrite bind_run, get_run. cbn [final emitted returned].
      apply (colour_handler_clears _
               (fun f0 b => set_textblk_strokecolor b (FontFormat.srgb f0))
               _ _ (active_format p1) a f); assumption.
Qed.

(** The sample panel: picking, then a valid colour. *)
Lemma colour_picking_keeps_block_witness :
  focusOnColorDialog
    (final (@onColorChanged Sample.toolkit Sample.repository true
              (final (changingColor Sample.panel)))) = false.
Proof.
  exact (proj1 (proj2 (proj2 (@colour_picking_keeps_block Sample.toolkit Sample.repository
                                Sample.panel))
                 0%nat Sample.global_fmt true eq_refl eq_refl)).
Defined.

(** Selecting a block and deselecting it again, with keyboard focus away
    from the format options, brings the panel back to the global format: no
    item, the global format active and shown, the global label, no signal;
    the object the global format points to is as it was. *)
Theorem select_then_deselect `{Toolkit} `{Repository}
  (p : FontFormatPanel) (item : TextBlkItem) (nb n : Z) (g : loc) (fg : FontFormat.t) :
  let o := (set_textblk_item (Some item);; set_textblk_item None) p in
  restoring_textblk p = false ->
  int_of_float (FontFormat.size (TextBlkItem_get_fontformat item)) = Ok nb ->
  global_format p = Some g ->
  formats p !! g = Some fg ->
  int_of_float (FontFormat.size fg) = Ok n ->
  focus_on_fmtoptions p = false ->
  returned o = Ok tt /\ emitted o = [] /\
  textblk_item (final o) = None /\
  active_format (final o) = global_format p /\
  global_format (final o) = global_format p /\
  formats (final o) !! g = Some fg /\
  fontfmtLabel (final o) = global_fontfmt_str p /\
  controls (final o) =
    show_format fg n (show_format (TextBlkItem_get_fontformat item) nb (controls p)).
Proof.
  intros o Hrest Hnb Hg Hfg Hn Hfocus. subst o.
  rewrite bind_run, (set_textblk_item_select_run p item nb Hrest Hnb).
  cbn [final emitted returned].
  set (p1 := setText _ _).
  assert (Hlt : (g < length (formats p))%nat) by (eapply lookup_lt_Some; exact Hfg).
  rewrite (set_textblk_item_deselect_run p1 g fg n).
  - cbn. rewrite Hg. repeat split. rewrite lookup_app_l by lia. exact Hfg.
  - exact Hfocus.
  - exact Hg.
  - cbn. rewrite lookup_app_l by lia. exact Hfg.
  - exact Hn.
Qed.

(** The sample item on the sample panel. *)
Lemma select_then_deselect_witness :
  textblk_item
    (final ((@set_textblk_item Sample.repository (Some (Sample.item Sample.abcd 0 0));;
             @set_textblk_item Sample.repository None) Sample.panel)) = None /\
  active_format
    (final ((@set_textblk_item Sample.repository (Some (Sample.item Sample.abcd 0 0));;
             @set_textblk_item Sample.repository None) Sample.panel)) = Some 0%nat.
Proof.
  destruct (@select_then_deselect Sample.toolkit Sample.repository Sample.panel
              (Sample.item Sample.abcd 0 0) 24 24 0%nat Sample.global_fmt
              eq_refl eq_refl eq_refl eq_refl eq_refl eq_refl)
    as (_ & _ & Hi & Ha & _).
  split; [exact Hi|exact Ha].
Defined.

(** ** Enter in the font-size box *)

(** Enter in the font-size box applies the size once.  If the text was
    changed by the user, [on_fbox_enter_pressed] clears the mark and emits
    the size the text reads as, or raises [ValueError], the mark cleared all
    the same, when the text is not a number; if it was not, nothing happens.
    Either way the mark is clear afterwards, so a second Enter emits
    nothing. *)
Theorem enter_applies_size_once (box : FontSizeBox) :
  let o := on_fbox_enter_pressed box in
  text_changed_by_user (fcombobox (final o)) = false /\
  currentText (fcombobox (final o)) = currentText (fcombobox box) /\
  on_fbox_enter_pressed (final o) = mkOutcome (final o) [] (Ok tt) /\
  (text_changed_by_user (fcombobox box) = false -> o = mkOutcome box [] (Ok tt)) /\
  (text_changed_by_user (fcombobox box) = true ->
     match currentText (fcombobox box) with
     | Some x => emitted o = [apply_fontsize x] /\ returned o = Ok tt
     | None => emitted o = [] /\ returned o = Raise ValueError
     end).
Proof.
  intros o. subst o. destruct box as [[text changed focus]].
  cbv [on_fbox_enter_pressed getFontSize mbind method_bind get lift value emit modify mret
       method_ret].
  cbn [final emitted returned app fcombobox text_changed_by_user currentText hasFocus].
  destruct changed; cbn [final emitted returned app fcombobox text_changed_by_user
                         currentText hasFocus];
    destruct text; cbn; repeat split; try done.
Qed.

(** A box the user typed 12 into. *)
Lemma enter_applies_size_once_witness :
  emitted (on_fbox_enter_pressed
             (mkFontSizeBox (mkSizeComboBox (Some (float_of_Z 12)) true true))) =
    [apply_fontsize (float_of_Z 12)] /\
  emitted (on_fbox_enter_pressed
             (final (on_fbox_enter_pressed
                       (mkFontSizeBox (mkSizeComboBox (Some (float_of_Z 12)) true true))))) = [].
Proof.
  pose proof (enter_applies_size_once
                (mkFontSizeBox (mkSizeComboBox (Some (float_of_Z 12)) true true))) as Hw.
  cbv zeta in Hw. destruct Hw as (_ & _ & Hsecond & _ & Hfirst).
  split.
  - exact (proj1 (Hfirst eq_refl)).
  - rewrite Hsecond. reflexivity.
Defined.

(** ** Clicks and codes of the alignment buttons *)

(** A click on a checker that is not checked checks it and no other, and
    emits its code.  The code [alignBtnPressed] emits, given back to
    [setAlignment], leaves the group as [alignBtnPressed] left it: the two
    methods agree on what the codes mean. *)
Theorem alignment_click_and_code_round_trip :
  (forall (b : AlignBtn) (g : AlignmentBtnGroup),
     isChecked (checker b g) = false ->
     emitted (click b g) = [set_alignment (alignment_code b)] /\
     returned (click b g) = Ok tt /\
     checked_alignments (final (click b g)) = [alignment_code b] /\
     isChecked (checker b (final (click b g))) = true) /\
  (forall (btn : option AlignBtn) (g : AlignmentBtnGroup) (n : Z),
     set_alignment n ∈ emitted (alignBtnPressed btn g) ->
     setAlignment n (final (alignBtnPressed btn g)) = final (alignBtnPressed btn g)) /\
  (forall (n : Z) (g : AlignmentBtnGroup),
     setAlignment n (setAlignment n g) = setAlignment n g).
Proof.
  split; [|split].
  - intros b g Hc.
    cbv [click mbind method_bind get modify]. cbn [final emitted returned].
    unfold mousePressEvent. rewrite Hc. cbn.
    destruct b, g; cbn in *; repeat split.
  - intros btn g n Hin.
    destruct btn as [[]|]; cbn in Hin; apply list_elem_of_singleton in Hin;
      injection Hin as ->; destruct g as [[] [] []]; reflexivity.
  - intros n g. unfold setAlignment.
    destruct (n =? 0); [|destruct (n =? 1)]; destruct g as [[] [] []]; reflexivity.
Qed.

(** The left checker checked, a click on the right one. *)
Lemma alignment_click_and_code_round_trip_witness :
  emitted (click RightBtn (mkGroup (mkChecker true false) (mkChecker false false)
                                   (mkChecker false false))) = [set_alignment 2] /\
  checked_alignments
    (final (click RightBtn (mkGroup (mkChecker true false) (mkChecker false false)
                                    (mkChecker false false)))) = [2].
Proof.
  destruct (proj1 alignment_click_and_code_round_trip RightBtn
              (mkGroup (mkChecker true false) (mkChecker false false)
                       (mkChecker false false)) eq_refl) as (He & _ & Hc & _).
  split; [exact He|exact Hc].
Defined.
